(** * ARPU: instruction records and the emulator's step function

    A shallow embedding of [asm/mnemonics.ts], [asm/AsmLine.ts] and of the
    emulator class [ARPUEmulator] (the revision that counts cycles and
    knows the stack instruction), followed by the properties of the
    specification that can be stated about them.

    JavaScript numbers are modelled by [Z]: every number the code handles
    is an integer far below 2^53.  Arrays of numbers are lists; strings
    are [string]; [undefined] is [None]. *)

From Stdlib Require Import ZArith Ascii String List Bool Lia.
From stdpp Require Import base list.
Import ListNotations.
Local Open Scope string_scope.
Local Open Scope list_scope.
Local Open Scope Z_scope.

(** ** JavaScript helpers *)

(** [a[i]]: the element at index [i], [undefined] when there is none. *)
Definition at_index {A : Type} (a : list A) (i : Z) : option A :=
  if i <? 0 then None else a !! Z.to_nat i.

(** [a.findIndex(p)]: the index of the first element satisfying [p],
    and -1 when no element does. *)
Fixpoint findIndex {A : Type} (p : A -> bool) (a : list A) : Z :=
  match a with
  | [] => -1
  | x :: rest =>
      if p x then 0
      else let i := findIndex p rest in if i <? 0 then -1 else i + 1
  end.

(** [a[i] = v] on an array of numbers.  Inside the array the slot is
    replaced; at index [length] JavaScript extends the array by one
    element.  Further out it would leave holes, and a negative index
    would create a property that is no element: neither is an array of
    numbers any more, hence [None]. *)
Definition assign_index (a : list Z) (i v : Z) : option (list Z) :=
  if i <? 0 then None
  else if i <? Z.of_nat (List.length a) then Some (<[Z.to_nat i := v]> a)
  else if i =? Z.of_nat (List.length a) then Some (a ++ [v])
  else None.

(** [a.pop()]: the last element (or [undefined]) and the shortened array. *)
Definition pop (a : list Z) : option Z * list Z :=
  (last a, removelast a).

(** [text.split(separator)] for a separator of one character. *)
Fixpoint split (separator : Ascii.ascii) (text : string) : list string :=
  match text with
  | EmptyString => [""]
  | String c rest =>
      if Ascii.eqb c separator then "" :: split separator rest
      else match split separator rest with
           | first :: others => String c first :: others
           | [] => [String c ""]
           end
  end.

(** [ToInt32], the conversion JavaScript applies to the operands of [<<]. *)
Definition toInt32 (z : Z) : Z := (z + 2 ^ 31) mod 2 ^ 32 - 2 ^ 31.

(** [x << n] where [x] may be [undefined] (which converts to 0). *)
Definition shiftLeft (x : option Z) (n : Z) : Z :=
  toInt32 (Z.shiftl (toInt32 (default 0 x)) (Z.land n 31)).

(** Modelled from the spec: [util/common-util.ts] is not among the sources.
    [isBitSet value index] tells whether bit [index] of [value] is set,
    bit 0 being the least significant one: the test-suite computes the
    expected MSBF of a byte as [isBitSet(result, 7)] and its LSBF as
    [isBitSet(result, 0)]. *)
Definition isBitSet (value index : Z) : bool := Z.testbit value index.

(** Modelled from the spec: [const/emulator-constants.ts] is not among the
    sources.  The front-end rejects a port value [>= WORD_SIZE] with the
    message "more than or equal to 256 (1 byte)". *)
Definition WORD_SIZE : Z := 256.

(** ** asm/mnemonics.ts *)

Definition DATA_MNEMONIC : string := "DW".

Definition INSTRUCTION_MNEMONICS : list string :=
  [ "ADD"; "SUB"; "RSH"; "INC"; "DEC"; "BIT"; "CAL"; "RET";
    "PST"; "PLD"; "IMM"; "STR"; "LOD"; "SOP"; "BRA"; "MOV" ].

Definition ALL_MNEMONICS : list string := DATA_MNEMONIC :: INSTRUCTION_MNEMONICS.

Definition EXTRA_BYTE_INSTRUCTIONS : list string := [ "BIT"; "IMM"; "BRA" ].

(** ** Operands *)

(** Modelled from the spec: [asm/Operand.ts] is not among the sources.  An
    operand is a register index, a literal integer, or a reference to a
    label, which stays unresolved until the second pass of the assembler
    gives it the offset of its target.  [AsmLine] and the emulator use two
    methods of it: [toInt()], [undefined] for an unresolved reference, and
    [getLabel()], the name a reference refers to.  The type has room for
    both readings of that second pass: a reference replaced by a
    [Literal], as the specification words it, and a reference filled in
    with its value, as the message of [getBytes()] words it ("operands
    that are labels were not filled with immediate values"); no statement
    below depends on which of the two the assembler does. *)
Inductive Operand : Type :=
  | Register (index : Z)
  | Literal (value : Z)
  | LabelReference (name : string) (resolved : option Z).

Definition toInt (o : Operand) : option Z :=
  match o with
  | Register index => Some index
  | Literal value => Some value
  | LabelReference _ resolved => resolved
  end.

Definition getLabel (o : Operand) : option string :=
  match o with
  | LabelReference name _ => Some name
  | _ => None
  end.

(** ** Exceptions *)

Inductive exn : Type :=
  | Error (message : string)   (* [throw new Error(message)] *)
  | TypeError.                 (* a method call on [undefined] *)

(** ** asm/AsmLine.ts *)

Module AsmLine.

Record t : Type := mk {
  isData : bool;
  mnemonic : string;
  operands : list Operand;
  sizeInBytes : Z;
  opcode : Z;
  aliasMnemonic : option string;
  aliasOperands : option (list Operand);
  offsetInBytes : option Z;
  label : option string
}.

(** Modelled from the spec: [asm/asm-util.ts] is not among the sources;
    [isData] recognises the mnemonic of the data directive. *)
Definition isDataMnemonic (m : string) : bool := String.eqb m DATA_MNEMONIC.

(** [new AsmLine(mnemonic, operands, aliasMnemonic, aliasOperands)] *)
Definition new (m : string) (ops : list Operand)
    (aliasM : option string) (aliasOps : option (list Operand)) : t :=
  {| isData := isDataMnemonic m;
     mnemonic := m;
     operands := ops;
     sizeInBytes := if (List.length ops =? 3)%nat then 2 else 1;
     opcode := findIndex (fun candidate => String.eqb m candidate) INSTRUCTION_MNEMONICS;
     aliasMnemonic := aliasM;
     aliasOperands := aliasOps;
     offsetInBytes := None;
     label := None |}.

Definition setLabel (l : string) (line : t) : t :=
  {| isData := isData line; mnemonic := mnemonic line; operands := operands line;
     sizeInBytes := sizeInBytes line; opcode := opcode line;
     aliasMnemonic := aliasMnemonic line; aliasOperands := aliasOperands line;
     offsetInBytes := offsetInBytes line;
     label := Some l |}.

Definition setOffsetInBytes (offset : Z) (line : t) : t :=
  {| isData := isData line; mnemonic := mnemonic line; operands := operands line;
     sizeInBytes := sizeInBytes line; opcode := opcode line;
     aliasMnemonic := aliasMnemonic line; aliasOperands := aliasOperands line;
     offsetInBytes := Some offset;
     label := label line |}.

(** [getBytes()].  The message of the error goes on, in the source, with
    the text of the line. *)
Definition getBytes (line : t) : exn + list Z :=
  let operandInts := map toInt (operands line) in
  if existsb (fun integer => match integer with None => true | Some _ => false end)
             operandInts
  then inl (Error "Some operands that are labels were not filled with immediate values")
  else
    let operandInt1 := mjoin (operandInts !! 0%nat) in
    let operandInt2 := Some (default 0 (mjoin (operandInts !! 1%nat))) in
    let operandInt3 := mjoin (operandInts !! 2%nat) in
    let byte1 := shiftLeft operandInt2 6 + shiftLeft operandInt1 4 + opcode line in
    inr (match operandInt3 with
         | None => [byte1]
         | Some third => [byte1; third]
         end).

(** [getDataValue()] *)
Definition getDataValue (line : t) : exn + option Z :=
  if isData line then
    match operands line !! 0%nat with
    | Some operand => inr (toInt operand)
    | None => inl TypeError
    end
  else inl (Error "Trying to access data value of non-data AsmLine").

(** [a === b] on two values that are a string or [undefined]. *)
Definition sameLabel (a b : option string) : bool :=
  match a, b with
  | Some x, Some y => String.eqb x y
  | None, None => true
  | _, _ => false
  end.

(** [isHalt()].  [&&] evaluates its right operand only when the left one
    holds: [this.operands[2].getLabel()] throws when a branch has no third
    operand; [this.operands[0]?.toInt()] is [undefined] when a return has
    no operand. *)
Definition isHalt (line : t) : exn + bool :=
  let isSelfBranch : exn + bool :=
    if String.eqb (mnemonic line) "BRA" then
      match operands line !! 2%nat with
      | Some target => inr (sameLabel (getLabel target) (label line))
      | None => inl TypeError
      end
    else inr false in
  let isReturnOne : bool :=
    String.eqb (mnemonic line) "RET"
    && match operands line !! 0%nat ≫= toInt with
       | Some value => value =? 1
       | None => false
       end in
  match isSelfBranch with
  | inr selfBranch => inr (selfBranch || isReturnOne)
  | inl e => inl e
  end.

(** [clone()].  [asm/Operand.ts] is not among the sources: the [clone()]
    of an operand is a parameter. *)
Section Clone.

Variable cloneOperand : Operand -> Operand.

Definition clone (line : t) : t :=
  let operandsClone := map cloneOperand (operands line) in
  let aliasOperandsClone :=
    match aliasOperands line with
    | Some aliases => Some (map cloneOperand aliases)
    | None => None
    end in
  let fresh := new (mnemonic line) operandsClone (aliasMnemonic line) aliasOperandsClone in
  let labelled :=
    match label line with
    | Some l => setLabel l fresh
    | None => fresh
    end in
  match offsetInBytes line with
  | Some offset => setOffsetInBytes offset labelled
  | None => labelled
  end.

End Clone.

(** The fields the constructor derives are [readonly]: in every record of
    the program they are what the constructor computed from the mnemonic
    and the operands. *)
Definition built (line : t) : Prop :=
  isData line = isDataMnemonic (mnemonic line)
  /\ sizeInBytes line = (if (List.length (operands line) =? 3)%nat then 2 else 1)
  /\ opcode line = findIndex (String.eqb (mnemonic line)) INSTRUCTION_MNEMONICS.

End AsmLine.

(** ** emulator/ARPUEmulator.ts *)

Module ARPUEmulator.

Record ARPUEmulatorState : Type := mkState {
  asmLines : list AsmLine.t;
  lineIndex : Z;
  registers : list Z;
  PC : Z;
  ZF : bool;
  COUTF : bool;
  MSBF : bool;
  LSBF : bool;
  PMEM : list Z;
  RAM : list Z;
  stack : list Z;
  inputPorts : list Z;
  outputPorts : list Z;
  isWaitingPortInput : bool;
  cycle : Z
}.

(** Updates of the fields the handlers assign to. *)

Definition set_lineIndex (v : Z) (s : ARPUEmulatorState) : ARPUEmulatorState :=
  mkState (asmLines s) v (registers s) (PC s) (ZF s) (COUTF s) (MSBF s) (LSBF s)
    (PMEM s) (RAM s) (stack s) (inputPorts s) (outputPorts s)
    (isWaitingPortInput s) (cycle s).

Definition set_registers (v : list Z) (s : ARPUEmulatorState) : ARPUEmulatorState :=
  mkState (asmLines s) (lineIndex s) v (PC s) (ZF s) (COUTF s) (MSBF s) (LSBF s)
    (PMEM s) (RAM s) (stack s) (inputPorts s) (outputPorts s)
    (isWaitingPortInput s) (cycle s).

Definition set_PC (v : Z) (s : ARPUEmulatorState) : ARPUEmulatorState :=
  mkState (asmLines s) (lineIndex s) (registers s) v (ZF s) (COUTF s) (MSBF s) (LSBF s)
    (PMEM s) (RAM s) (stack s) (inputPorts s) (outputPorts s)
    (isWaitingPortInput s) (cycle s).

Definition set_stack (v : list Z) (s : ARPUEmulatorState) : ARPUEmulatorState :=
  mkState (asmLines s) (lineIndex s) (registers s) (PC s) (ZF s) (COUTF s) (MSBF s) (LSBF s)
    (PMEM s) (RAM s) v (inputPorts s) (outputPorts s)
    (isWaitingPortInput s) (cycle s).

Definition set_inputPorts (v : list Z) (s : ARPUEmulatorState) : ARPUEmulatorState :=
  mkState (asmLines s) (lineIndex s) (registers s) (PC s) (ZF s) (COUTF s) (MSBF s) (LSBF s)
    (PMEM s) (RAM s) (stack s) v (outputPorts s)
    (isWaitingPortInput s) (cycle s).

Definition set_outputPorts (v : list Z) (s : ARPUEmulatorState) : ARPUEmulatorState :=
  mkState (asmLines s) (lineIndex s) (registers s) (PC s) (ZF s) (COUTF s) (MSBF s) (LSBF s)
    (PMEM s) (RAM s) (stack s) (inputPorts s) v
    (isWaitingPortInput s) (cycle s).

Definition set_isWaitingPortInput (v : bool) (s : ARPUEmulatorState) : ARPUEmulatorState :=
  mkState (asmLines s) (lineIndex s) (registers s) (PC s) (ZF s) (COUTF s) (MSBF s) (LSBF s)
    (PMEM s) (RAM s) (stack s) (inputPorts s) (outputPorts s)
    v (cycle s).

(** The handlers never assign a flag; the test-suite does, through
    [getState()]. *)
Definition set_ZF (v : bool) (s : ARPUEmulatorState) : ARPUEmulatorState :=
  mkState (asmLines s) (lineIndex s) (registers s) (PC s) v (COUTF s) (MSBF s) (LSBF s)
    (PMEM s) (RAM s) (stack s) (inputPorts s) (outputPorts s)
    (isWaitingPortInput s) (cycle s).

Definition set_cycle (v : Z) (s : ARPUEmulatorState) : ARPUEmulatorState :=
  mkState (asmLines s) (lineIndex s) (registers s) (PC s) (ZF s) (COUTF s) (MSBF s) (LSBF s)
    (PMEM s) (RAM s) (stack s) (inputPorts s) (outputPorts s)
    (isWaitingPortInput s) v.

(** *** Methods as state transformers

    A method runs on the one state object of the emulator and mutates it
    in place, so a call that throws leaves behind whatever it had
    assigned before.  A call therefore yields a completion together
    with the state it leaves.

    [Untyped] marks the runs that leave the declared types: an operand
    whose [toInt()] is [undefined], the read of an array slot that does
    not exist, or an assignment that would put holes or a non-index
    property into an array.  JavaScript goes on there with [undefined]
    or [NaN] where the state declares a [number]. *)

Inductive completion (A : Type) : Type :=
  | Normal (a : A)
  | Throw (e : exn)
  | Untyped.
Arguments Normal {A} a.
Arguments Throw {A} e.
Arguments Untyped {A}.

Definition M (A : Type) : Type := ARPUEmulatorState -> completion A * ARPUEmulatorState.

Definition ret {A : Type} (a : A) : M A := fun s => (Normal a, s).

Definition bind {A B : Type} (m : M A) (k : A -> M B) : M B :=
  fun s =>
    match m s with
    | (Normal a, s') => k a s'
    | (Throw e, s') => (Throw e, s')
    | (Untyped, s') => (Untyped, s')
    end.

Definition throw {A : Type} (e : exn) : M A := fun s => (Throw e, s).
Definition untyped {A : Type} : M A := fun s => (Untyped, s).
Definition gets {A : Type} (f : ARPUEmulatorState -> A) : M A := fun s => (Normal (f s), s).
Definition modify (f : ARPUEmulatorState -> ARPUEmulatorState) : M unit :=
  fun s => (Normal tt, f s).

(** A value that has to be a number. *)
Definition number {A : Type} (v : option A) : M A :=
  match v with
  | Some a => ret a
  | None => untyped
  end.

Notation "x <- m ;; k" := (bind m (fun x => k))
  (at level 100, m at next level, right associativity).
Notation "m ;;; k" := (bind m (fun _ => k))
  (at level 100, right associativity).

(** [operands[i].toInt()] *)
Definition operandInt (operands : list Operand) (i : nat) : M Z :=
  match operands !! i with
  | Some operand => number (toInt operand)
  | None => throw TypeError
  end.

(** [this.state.registers[i]] *)
Definition readRegister (i : Z) : M Z :=
  s <- gets registers ;; number (at_index s i).

(** [this.state.registers[i] = v] *)
Definition writeRegister (i v : Z) : M unit :=
  r <- gets registers ;;
  r' <- number (assign_index r i v) ;;
  modify (set_registers r').

(** [this.state.PC += n], [this.state.lineIndex += n], [this.state.cycle += n] *)
Definition addPC (n : Z) : M unit := modify (fun s => set_PC (PC s + n) s).
Definition addLineIndex (n : Z) : M unit := modify (fun s => set_lineIndex (lineIndex s + n) s).
Definition addCycle (n : Z) : M unit := modify (fun s => set_cycle (cycle s + n) s).

Definition getFlags (s : ARPUEmulatorState) : list bool :=
  [ZF s; COUTF s; MSBF s; LSBF s].

Definition increment (operands : list Operand) : M unit :=
  operand1Value <- operandInt operands 0 ;;
  old <- readRegister operand1Value ;;
  writeRegister operand1Value (old + 1) ;;;
  current <- readRegister operand1Value ;;
  (if current >=? WORD_SIZE then writeRegister operand1Value 0 else ret tt) ;;;
  addPC 1 ;;;
  addLineIndex 1 ;;;
  addCycle 1.

Definition loadImmediate (operands : list Operand) : M unit :=
  destinationRegisterIndex <- operandInt operands 0 ;;
  immediate <- operandInt operands 2 ;;
  writeRegister destinationRegisterIndex immediate ;;;
  addPC 2 ;;;
  addLineIndex 1 ;;;
  addCycle 1.

Definition portLoad (_ : list Operand) : M unit :=
  modify (set_isWaitingPortInput true).

Definition portStore (operands : list Operand) : M unit :=
  sourceRegisterIndex <- operandInt operands 0 ;;
  portIndex <- operandInt operands 1 ;;
  value <- readRegister sourceRegisterIndex ;;
  ports <- gets outputPorts ;;
  ports' <- number (assign_index ports portIndex value) ;;
  modify (set_outputPorts ports') ;;;
  addPC 1 ;;;
  addLineIndex 1 ;;;
  addCycle 1.

(** [flag !== isNegate], where [flag] is [undefined] when the condition
    selects no flag. *)
Definition differs (flag : option bool) (isNegate : bool) : bool :=
  match flag with
  | Some f => negb (Bool.eqb f isNegate)
  | None => true
  end.

Definition shouldJump (operands : list Operand) : M bool :=
  condition <- operandInt operands 0 ;;
  flags <- operandInt operands 1 ;;
  let isConditional := isBitSet flags 0 in
  let isNegate := isBitSet flags 1 in
  if negb isConditional then ret true
  else
    flag <- gets (fun s => at_index (getFlags s) condition) ;;
    ret (differs flag isNegate).

(** [asmLine.getOffsetInBytes() === destinationOffset] *)
Definition hasOffset (destinationOffset : Z) (asmLine : AsmLine.t) : bool :=
  match AsmLine.offsetInBytes asmLine with
  | Some offset => offset =? destinationOffset
  | None => false
  end.

Definition branch (operands : list Operand) : M unit :=
  destinationOffset <- operandInt operands 2 ;;
  jump <- shouldJump operands ;;
  (if jump then
     lines <- gets asmLines ;;
     let jumpToIndex := findIndex (hasOffset destinationOffset) lines in
     modify (set_PC destinationOffset) ;;;
     modify (set_lineIndex jumpToIndex)
   else
     addPC 2 ;;;
     addLineIndex 1) ;;;
  addCycle 1.

Definition stackOperation (operands : list Operand) : M unit :=
  mode <- operandInt operands 1 ;;
  let isPush := mode =? 0 in
  (if isPush then
     sourceRegisterIndex <- operandInt operands 0 ;;
     valueToPush <- readRegister sourceRegisterIndex ;;
     modify (fun s => set_stack (stack s ++ [valueToPush]) s)
   else
     destinationRegisterIndex <- operandInt operands 0 ;;
     popped <- gets (fun s => pop (stack s)) ;;
     modify (set_stack (snd popped)) ;;;
     let poppedValue := fst popped in
     let valueToWrite := match poppedValue with None => 0 | Some v => v end in
     writeRegister destinationRegisterIndex valueToWrite) ;;;
  addPC 1 ;;;
  addLineIndex 1 ;;;
  addCycle 1.

(** The table [handlers].  A mnemonic of the assembler that is no key of
    it looks up [undefined], and calling that throws.  The table is a
    plain object: a name that [Object.prototype] defines ([toString],
    [constructor], ...) would look up an inherited function.  None of
    [ALL_MNEMONICS] is such a name, and the list stands for the lookup of
    those; what is said below of records without handler is said of them. *)
Definition handlers : list (string * (list Operand -> M unit)) :=
  [ ("INC", increment);
    ("IMM", loadImmediate);
    ("PLD", portLoad);
    ("PST", portStore);
    ("BRA", branch);
    ("SOP", stackOperation) ].

Fixpoint lookup_handler (table : list (string * (list Operand -> M unit)))
    (mnemonic : string) : option (list Operand -> M unit) :=
  match table with
  | [] => None
  | (key, handler) :: rest =>
      if String.eqb key mnemonic then Some handler else lookup_handler rest mnemonic
  end.

(** [this.state.asmLines[this.state.lineIndex]] *)
Definition currentLine (s : ARPUEmulatorState) : option AsmLine.t :=
  at_index (asmLines s) (lineIndex s).

Definition step : M unit :=
  waiting <- gets isWaitingPortInput ;;
  if waiting then throw (Error "Cannot make a step while waiting for the port input")
  else
    instruction <- gets currentLine ;;
    match instruction with
    | None => throw TypeError
    | Some instruction =>
        let mnemonic := AsmLine.mnemonic instruction in
        match lookup_handler handlers mnemonic with
        | None => throw TypeError
        | Some handler => handler (AsmLine.operands instruction)
        end
    end.

Definition portInput (value : Z) : M unit :=
  waiting <- gets isWaitingPortInput ;;
  if negb waiting then throw (Error "Cannot input to port while not waiting for port input")
  else
    asmLine <- gets currentLine ;;
    match asmLine with
    | None => throw TypeError
    | Some asmLine =>
        if negb (String.eqb (AsmLine.mnemonic asmLine) "PLD")
        then throw (Error "Illegal state: current instruction is not PLD but we are waiting for port input")
        else
          destinationRegisterIndex <- operandInt (AsmLine.operands asmLine) 0 ;;
          portIndex <- operandInt (AsmLine.operands asmLine) 1 ;;
          writeRegister destinationRegisterIndex value ;;;
          ports <- gets inputPorts ;;
          ports' <- number (assign_index ports portIndex value) ;;
          modify (set_inputPorts ports') ;;;
          addPC 1 ;;;
          addLineIndex 1 ;;;
          modify (set_isWaitingPortInput false) ;;;
          addCycle 1
    end.

(** *** Construction

    [asm/assemble.ts] and the constants are not among the sources: the
    assembler, the encoder and the size of the RAM are parameters. *)

Section Construction.

Variable compileIntermediateRepresentation : list string -> exn + list AsmLine.t.
Variable IRToMachineCode : list AsmLine.t -> exn + list Z.
Variable RAM_SIZE_IN_BYTES : nat.

Definition defaultARPUEmulatorState (asmCode : string) : exn + ARPUEmulatorState :=
  match compileIntermediateRepresentation (split "010"%char asmCode) with
  | inl e => inl e
  | inr lines =>
      match IRToMachineCode lines with
      | inl e => inl e
      | inr machineCode =>
          inr {| asmLines := lines;
                 lineIndex := 0;
                 registers := [0; 0; 0; 0];
                 PC := 0;
                 ZF := false;
                 COUTF := false;
                 MSBF := false;
                 LSBF := false;
                 PMEM := machineCode;
                 RAM := repeat 0 RAM_SIZE_IN_BYTES;
                 stack := [];
                 inputPorts := [0; 0; 0; 0];
                 outputPorts := [0; 0; 0; 0];
                 isWaitingPortInput := false;
                 cycle := 0 |}
      end
  end.

(** [new ARPUEmulator(asmCode)] *)
Definition new (asmCode : string) : exn + ARPUEmulatorState :=
  defaultARPUEmulatorState asmCode.

End Construction.

End ARPUEmulator.

(** ** The layout the assembler gives a program *)

(** Modelled from the spec: the layout pass of [asm/assemble.ts] is not
    among the sources.  Records are built in source order and the offset
    of each is the sum of the sizes of the records before it. *)
Fixpoint layout (start : Z) (lines : list AsmLine.t) : list AsmLine.t :=
  match lines with
  | [] => []
  | line :: rest =>
      AsmLine.setOffsetInBytes start line
      :: layout (start + AsmLine.sizeInBytes line) rest
  end.

(** A record built with literal operands only, as the parser builds it
    from a statement without label. *)
Definition statement (mnemonic : string) (operands : list Operand) : AsmLine.t :=
  AsmLine.new mnemonic operands None None.

(** The state the tests start from: that of a fresh emulator whose program
    is [lines], with an encoded image [image] and a RAM of [ramSize] cells. *)
Definition freshState (lines : list AsmLine.t) (image : list Z) (ramSize : nat)
  : ARPUEmulator.ARPUEmulatorState :=
  {| ARPUEmulator.asmLines := lines;
     ARPUEmulator.lineIndex := 0;
     ARPUEmulator.registers := [0; 0; 0; 0];
     ARPUEmulator.PC := 0;
     ARPUEmulator.ZF := false;
     ARPUEmulator.COUTF := false;
     ARPUEmulator.MSBF := false;
     ARPUEmulator.LSBF := false;
     ARPUEmulator.PMEM := image;
     ARPUEmulator.RAM := repeat 0 ramSize;
     ARPUEmulator.stack := [];
     ARPUEmulator.inputPorts := [0; 0; 0; 0];
     ARPUEmulator.outputPorts := [0; 0; 0; 0];
     ARPUEmulator.isWaitingPortInput := false;
     ARPUEmulator.cycle := 0 |}.

Import ARPUEmulator.

(** Modelled from the spec: the encoder of [asm/assemble.ts] is not among
    the sources; it concatenates the bytes of the records in order. *)
Definition encodeAll (lines : list AsmLine.t) : exn + list Z :=
  foldr (fun line acc =>
           match AsmLine.getBytes line, acc with
           | inr bytes, inr others => inr (bytes ++ others)
           | inl e, _ => inl e
           | _, inl e => inl e
           end) (inr []) lines.

(** The emulator of the examples: a fresh one on [lines], with their image
    as program memory and 256 cells of RAM. *)
Definition emulatorOn (lines : list AsmLine.t) : ARPUEmulatorState :=
  freshState lines (match encodeAll lines with inr image => image | inl _ => [] end) 256.

(** ** Programs as the assembler lays them out *)

(** Total size of a program in bytes. *)
Fixpoint byteSize (lines : list AsmLine.t) : Z :=
  match lines with
  | [] => 0
  | line :: rest => AsmLine.sizeInBytes line + byteSize rest
  end.

(** The offsets are the running sum of the sizes, from [start] on. *)
Fixpoint laidOut (start : Z) (lines : list AsmLine.t) : bool :=
  match lines with
  | [] => true
  | line :: rest =>
      hasOffset start line && laidOut (start + AsmLine.sizeInBytes line) rest
  end.

(** Modelled from the spec: the parser [asm/parse.ts] is not among the
    sources; it checks the number of operands of every statement.  A
    record has the size its constructor computes and, when the emulator
    has a handler for it, a third operand exactly if its mnemonic is one
    of [EXTRA_BYTE_INSTRUCTIONS]. *)
Definition wellFormed (line : AsmLine.t) : bool :=
  (AsmLine.sizeInBytes line
   =? if (List.length (AsmLine.operands line) =? 3)%nat then 2 else 1)
  && match lookup_handler handlers (AsmLine.mnemonic line) with
     | Some _ =>
         Bool.eqb (List.length (AsmLine.operands line) =? 3)%nat
                  (existsb (String.eqb (AsmLine.mnemonic line)) EXTRA_BYTE_INSTRUCTIONS)
     | None => true
     end.

(** The target of every branch is the offset of a record. *)
Definition targetsExist (lines : list AsmLine.t) : bool :=
  forallb
    (fun line =>
       negb (String.eqb (AsmLine.mnemonic line) "BRA")
       || match AsmLine.operands line !! 2%nat ≫= toInt with
          | Some target => existsb (hasOffset target) lines
          | None => true
          end)
    lines.

(** What is assumed of the program of an emulator. *)
Definition assembled (lines : list AsmLine.t) : bool :=
  forallb wellFormed lines && laidOut 0 lines && targetsExist lines.

(** ** The position counters *)

(** [PC == asmLines[lineIndex].getOffsetInBytes()] *)
Definition inLockstep (s : ARPUEmulatorState) : Prop :=
  currentLine s ≫= AsmLine.offsetInBytes = Some (PC s).

(** Past the last record: lineIndex is the number of records and PC the
    size of the program. *)
Definition pastEnd (s : ARPUEmulatorState) : Prop :=
  lineIndex s = Z.of_nat (List.length (asmLines s)) /\ PC s = byteSize (asmLines s).

(** [s'] is [s] moved on by [bytes] bytes and [lines] records, one cycle
    later, on the same program. *)
Record moved (s s' : ARPUEmulatorState) (bytes lines : Z) : Prop := {
  moved_program : asmLines s' = asmLines s;
  moved_PC : PC s' = PC s + bytes;
  moved_lineIndex : lineIndex s' = lineIndex s + lines;
  moved_cycle : cycle s' = cycle s + 1
}.

(** [s'] is [s] after a jump to the record at offset [target]. *)
Record jumped (s s' : ARPUEmulatorState) (target : Z) : Prop := {
  jumped_program : asmLines s' = asmLines s;
  jumped_PC : PC s' = target;
  jumped_lineIndex : lineIndex s' = findIndex (hasOffset target) (asmLines s);
  jumped_cycle : cycle s' = cycle s + 1
}.

(** The states a run reaches from [start]: any number of completed
    [step()] calls and completed [portInput] calls. *)
Inductive reachable (start : ARPUEmulatorState) : ARPUEmulatorState -> Prop :=
  | reachable_start : reachable start start
  | reachable_step (s s' : ARPUEmulatorState) :
      reachable start s -> step s = (Normal tt, s') -> reachable start s'
  | reachable_portInput (s s' : ARPUEmulatorState) (value : Z) :
      reachable start s -> portInput value s = (Normal tt, s') -> reachable start s'.

(** ** The halt condition of the specification *)

(** The halt condition in the words of the specification: a branch whose
    literal target offset equals the offset of the record's own label, or
    a return whose first operand is the literal 1.  The label of a record
    stands at the offset of the record. *)
Definition haltBySpec (line : AsmLine.t) : bool :=
  let isSelfLoop :=
    String.eqb (AsmLine.mnemonic line) "BRA"
    && match AsmLine.operands line !! 2%nat ≫= toInt,
             AsmLine.label line, AsmLine.offsetInBytes line with
       | Some target, Some _, Some own => target =? own
       | _, _, _ => false
       end in
  let isReturnOne :=
    String.eqb (AsmLine.mnemonic line) "RET"
    && match AsmLine.operands line !! 0%nat ≫= toInt with
       | Some value => value =? 1
       | None => false
       end in
  isSelfLoop || isReturnOne.

(** ** Programs of the test-suite *)

(** [IMM 0 0 42] *)
Definition programIMM : list AsmLine.t :=
  layout 0 [statement "IMM" [Literal 0; Literal 0; Literal 42]].

(** [INC R1 R2] *)
Definition programINC : list AsmLine.t :=
  layout 0 [statement "INC" [Register 0; Register 1]].

(** [SOP R1 2], a pop *)
Definition programSOP : list AsmLine.t :=
  layout 0 [statement "SOP" [Register 0; Literal 2]].

(** [PLD R1 0] *)
Definition programPLD : list AsmLine.t :=
  layout 0 [statement "PLD" [Register 0; Literal 0]].

(** The program of the conditional-branch tests:
    [BRA 0 0b01 .branch], [IMM R1 0 1], [.branch], [IMM R1 0 2]. *)
Definition programBRA : list AsmLine.t :=
  layout 0
    [ statement "BRA" [Literal 0; Literal 1; LabelReference ".branch" (Some 4)];
      statement "IMM" [Register 0; Literal 0; Literal 1];
      AsmLine.setLabel ".branch" (statement "IMM" [Register 0; Literal 0; Literal 2]) ].

(** [ADD R1 R2], the first mnemonic of the table of instructions. *)
Definition programADD : list AsmLine.t :=
  layout 0 [statement "ADD" [Register 0; Register 1]].

(** [IMM R2 0 300]: an immediate that is no byte. *)
Definition programIMMwide : list AsmLine.t :=
  layout 0 [statement "IMM" [Register 1; Literal 0; Literal 300]].

(** [PST R1 2] *)
Definition programPST : list AsmLine.t :=
  layout 0 [statement "PST" [Register 0; Literal 2]].

(** [BRA 0 0 5], [IMM R1 0 1]: no record stands at offset 5. *)
Definition programBRAlost : list AsmLine.t :=
  layout 0
    [ statement "BRA" [Literal 0; Literal 0; Literal 5];
      statement "IMM" [Register 0; Literal 0; Literal 1] ].

(** A stand-in for the assembler: it knows the one statement of the first
    scenario of the test-suite. *)
Definition assembleIMM (source : list string) : exn + list AsmLine.t :=
  match source with
  | ["IMM 0 0 42"] => inr (layout 0 [statement "IMM" [Literal 0; Literal 0; Literal 42]])
  | _ => inl (Error "unknown statement")
  end.

(** ** Bytes, and what a call leaves alone *)

(** The values of an array are bytes. *)
Definition bytes (values : list Z) : Prop :=
  Forall (fun value => 0 <= value < WORD_SIZE) values.

(** Registers, stack and ports hold bytes. *)
Definition byteState (s : ARPUEmulatorState) : Prop :=
  bytes (registers s) /\ bytes (stack s)
  /\ bytes (inputPorts s) /\ bytes (outputPorts s).

(** The immediate of every IMM record is a byte. *)
Definition byteImmediates (lines : list AsmLine.t) : Prop :=
  forall (line : AsmLine.t) (third : Operand) (immediate : Z),
    In line lines ->
    AsmLine.mnemonic line = "IMM" ->
    AsmLine.operands line !! 2%nat = Some third ->
    toInt third = Some immediate ->
    0 <= immediate < WORD_SIZE.

(** The operands of [line] have values, and those that the handler of
    [line] uses as an index name a slot that is there: the first operand
    a register (of every record but a branch, whose first operand selects
    a flag), the second operand of a PST an output port and that of a PLD
    an input port. *)
Definition operandsInRange (s : ARPUEmulatorState) (line : AsmLine.t) : Prop :=
  (forall operand : Operand, In operand (AsmLine.operands line) -> toInt operand <> None)
  /\ (AsmLine.mnemonic line <> "BRA" ->
      forall (first : Operand) (index : Z),
        AsmLine.operands line !! 0%nat = Some first -> toInt first = Some index ->
        0 <= index < Z.of_nat (List.length (registers s)))
  /\ (AsmLine.mnemonic line = "PST" ->
      forall (second : Operand) (port : Z),
        AsmLine.operands line !! 1%nat = Some second -> toInt second = Some port ->
        0 <= port < Z.of_nat (List.length (outputPorts s)))
  /\ (AsmLine.mnemonic line = "PLD" ->
      forall (second : Operand) (port : Z),
        AsmLine.operands line !! 1%nat = Some second -> toInt second = Some port ->
        0 <= port < Z.of_nat (List.length (inputPorts s))).

(** The components no method of the emulator assigns to. *)
Record untouched (s s' : ARPUEmulatorState) : Prop := {
  untouched_asmLines : asmLines s' = asmLines s;
  untouched_ZF : ZF s' = ZF s;
  untouched_COUTF : COUTF s' = COUTF s;
  untouched_MSBF : MSBF s' = MSBF s;
  untouched_LSBF : LSBF s' = LSBF s;
  untouched_PMEM : PMEM s' = PMEM s;
  untouched_RAM : RAM s' = RAM s
}.

(** The keys of the table of handlers. *)
Definition handledMnemonics : list string := map fst handlers.

(** * Properties *)

(** ** Helper lemmas on the JavaScript helpers *)

Lemma at_index_nat {A : Type} (a : list A) (i : Z) :
  0 <= i -> at_index a i = a !! Z.to_nat i.
Proof.
  intros Hi. unfold at_index.
  destruct (Z.ltb_spec i 0) as [Hneg | _]; [lia | reflexivity].
Qed.

Lemma at_index_Some {A : Type} (a : list A) (i : Z) (x : A) :
  at_index a i = Some x -> 0 <= i < Z.of_nat (List.length a) /\ a !! Z.to_nat i = Some x.
Proof.
  unfold at_index.
  destruct (Z.ltb_spec i 0) as [Hneg | Hpos]; [discriminate |].
  intros Hlookup. split; [| exact Hlookup].
  apply lookup_lt_Some in Hlookup. lia.
Qed.

Lemma assign_index_inside (a : list Z) (i v : Z) :
  0 <= i < Z.of_nat (List.length a) ->
  assign_index a i v = Some (<[Z.to_nat i := v]> a).
Proof.
  intros [Hlow Hhigh]. unfold assign_index.
  destruct (Z.ltb_spec i 0) as [Hneg | _]; [lia |].
  destruct (Z.ltb_spec i (Z.of_nat (List.length a))) as [_ | Hout]; [reflexivity | lia].
Qed.

(** ** The fresh state (C10) *)

(** C10.  When the assembler and the encoder succeed on the program text,
    the emulator is constructed, and its state has registers [0,0,0,0],
    PC 0, lineIndex 0, the four flags false, cycle 0, an empty stack, a
    RAM of the configured size whose cells are all 0, input and output
    ports [0,0,0,0] and no pending port read. *)
Theorem fresh_emulator_state
    (compile : list string -> exn + list AsmLine.t)
    (encode : list AsmLine.t -> exn + list Z)
    (ramSize : nat) (asmCode : string) (lines : list AsmLine.t) (image : list Z) :
  compile (split "010"%char asmCode) = inr lines ->
  encode lines = inr image ->
  exists s,
    ARPUEmulator.new compile encode ramSize asmCode = inr s
    /\ asmLines s = lines /\ PMEM s = image
    /\ registers s = [0; 0; 0; 0] /\ PC s = 0 /\ lineIndex s = 0
    /\ ZF s = false /\ COUTF s = false /\ MSBF s = false /\ LSBF s = false
    /\ cycle s = 0 /\ stack s = []
    /\ List.length (RAM s) = ramSize
    /\ (forall (i : nat) (cell : Z), RAM s !! i = Some cell -> cell = 0)
    /\ inputPorts s = [0; 0; 0; 0] /\ outputPorts s = [0; 0; 0; 0]
    /\ isWaitingPortInput s = false.
Proof.
  intros Hcompile Hencode.
  unfold ARPUEmulator.new, defaultARPUEmulatorState.
  rewrite Hcompile, Hencode.
  eexists; split; [reflexivity |].
  cbn [asmLines PMEM registers PC lineIndex ZF COUTF MSBF LSBF cycle stack RAM
       inputPorts outputPorts isWaitingPortInput].
  repeat split.
  - apply repeat_length.
  - intros i cell Hcell.
    apply list_elem_of_lookup_2, list_elem_of_In, repeat_spec in Hcell. exact Hcell.
Qed.

Lemma fresh_emulator_state_witness :
  exists s,
    ARPUEmulator.new assembleIMM encodeAll 256 "IMM 0 0 42" = inr s
    /\ asmLines s = layout 0 [statement "IMM" [Literal 0; Literal 0; Literal 42]]
    /\ PMEM s = [10; 42]
    /\ registers s = [0; 0; 0; 0] /\ PC s = 0 /\ lineIndex s = 0
    /\ ZF s = false /\ COUTF s = false /\ MSBF s = false /\ LSBF s = false
    /\ cycle s = 0 /\ stack s = []
    /\ List.length (RAM s) = 256%nat
    /\ (forall (i : nat) (cell : Z), RAM s !! i = Some cell -> cell = 0)
    /\ inputPorts s = [0; 0; 0; 0] /\ outputPorts s = [0; 0; 0; 0]
    /\ isWaitingPortInput s = false.
Proof.
  apply (fresh_emulator_state assembleIMM encodeAll 256 "IMM 0 0 42"
           (layout 0 [statement "IMM" [Literal 0; Literal 0; Literal 42]]) [10; 42]).
  - reflexivity.
  - reflexivity.
Defined.

(** ** Calls the emulator refuses (C6) *)

(** C6.  [step()] throws its error while a port read is pending;
    [portInput] throws its error when no read is pending, and when a read
    is pending but the current record is not a PLD.  (The source throws
    plain [Error]s, told apart by their messages; they are what the
    specification calls IllegalState.)  In each of the three cases the
    state the call leaves is the state it found. *)
Theorem refused_calls_leave_state (s : ARPUEmulatorState) (value : Z) :
  (isWaitingPortInput s = true ->
     step s = (Throw (Error "Cannot make a step while waiting for the port input"), s))
  /\ (isWaitingPortInput s = false ->
     portInput value s
     = (Throw (Error "Cannot input to port while not waiting for port input"), s))
  /\ (forall line : AsmLine.t,
     isWaitingPortInput s = true ->
     currentLine s = Some line ->
     AsmLine.mnemonic line <> "PLD" ->
     portInput value s
     = (Throw (Error "Illegal state: current instruction is not PLD but we are waiting for port input"), s)).
Proof.
  split; [| split].
  - intros Hwaiting. unfold step, bind, gets. rewrite Hwaiting. reflexivity.
  - intros Hidle. unfold portInput, bind, gets. rewrite Hidle. reflexivity.
  - intros line Hwaiting Hline Hother.
    unfold portInput, bind, gets. rewrite Hwaiting. cbn [negb]. rewrite Hline.
    destruct (String.eqb_spec (AsmLine.mnemonic line) "PLD") as [Heq | _];
      [contradiction | reflexivity].
Qed.

Lemma refused_calls_leave_state_witness :
  let pending := set_isWaitingPortInput true (emulatorOn programPLD) in
  let idle := emulatorOn programPLD in
  let confused := set_isWaitingPortInput true (emulatorOn programINC) in
  step pending
    = (Throw (Error "Cannot make a step while waiting for the port input"), pending)
  /\ portInput 2 idle
    = (Throw (Error "Cannot input to port while not waiting for port input"), idle)
  /\ portInput 2 confused
    = (Throw (Error "Illegal state: current instruction is not PLD but we are waiting for port input"), confused).
Proof.
  intros pending idle confused. split; [| split].
  - apply (proj1 (refused_calls_leave_state pending 0)). reflexivity.
  - apply (proj1 (proj2 (refused_calls_leave_state idle 2))). reflexivity.
  - apply (proj2 (proj2 (refused_calls_leave_state confused 2))
             (AsmLine.setOffsetInBytes 0 (statement "INC" [Register 0; Register 1]))).
    + reflexivity.
    + reflexivity.
    + discriminate.
Defined.

(** ** The port-read protocol (C5) *)

(** C5.  On a PLD record whose operands name a register and an input
    port of the emulator, [step()] sets [isWaitingPortInput] and changes
    nothing else.  [portInput(value)] then stores [value] in that
    register and in that slot of [inputPorts], clears
    [isWaitingPortInput] and adds 1 to PC, to lineIndex and to cycle; all
    other components stay as they were. *)
Theorem port_read_protocol (s : ARPUEmulatorState) (line : AsmLine.t)
    (destination port : Operand) (destinationRegisterIndex portIndex value : Z) :
  isWaitingPortInput s = false ->
  currentLine s = Some line ->
  AsmLine.mnemonic line = "PLD" ->
  AsmLine.operands line !! 0%nat = Some destination ->
  AsmLine.operands line !! 1%nat = Some port ->
  toInt destination = Some destinationRegisterIndex ->
  toInt port = Some portIndex ->
  0 <= destinationRegisterIndex < Z.of_nat (List.length (registers s)) ->
  0 <= portIndex < Z.of_nat (List.length (inputPorts s)) ->
  step s = (Normal tt, set_isWaitingPortInput true s)
  /\ portInput value (set_isWaitingPortInput true s)
     = (Normal tt,
        {| asmLines := asmLines s;
           lineIndex := lineIndex s + 1;
           registers := <[Z.to_nat destinationRegisterIndex := value]> (registers s);
           PC := PC s + 1;
           ZF := ZF s;
           COUTF := COUTF s;
           MSBF := MSBF s;
           LSBF := LSBF s;
           PMEM := PMEM s;
           RAM := RAM s;
           stack := stack s;
           inputPorts := <[Z.to_nat portIndex := value]> (inputPorts s);
           outputPorts := outputPorts s;
           isWaitingPortInput := false;
           cycle := cycle s + 1 |}).
Proof.
  intros Hidle Hline Hmnemonic Hop0 Hop1 Hdest Hport Hreg Hslot.
  split.
  - unfold step, bind, gets. rewrite Hidle, Hline, Hmnemonic. reflexivity.
  - unfold portInput, bind, gets.
    cbn [isWaitingPortInput set_isWaitingPortInput negb].
    change (currentLine (set_isWaitingPortInput true s)) with (currentLine s).
    rewrite Hline, Hmnemonic. cbn [String.eqb Ascii.eqb Bool.eqb negb].
    unfold operandInt. rewrite Hop0, Hop1, Hdest, Hport.
    unfold writeRegister, bind, gets, number, ret, modify.
    cbn [registers set_isWaitingPortInput].
    rewrite (assign_index_inside _ _ value Hreg).
    cbn [inputPorts set_registers set_isWaitingPortInput].
    rewrite (assign_index_inside _ _ value Hslot).
    reflexivity.
Qed.

Lemma port_read_protocol_witness :
  let s := emulatorOn programPLD in
  step s = (Normal tt, set_isWaitingPortInput true s)
  /\ portInput 2 (set_isWaitingPortInput true s)
     = (Normal tt,
        {| asmLines := programPLD;
           lineIndex := 1;
           registers := [2; 0; 0; 0];
           PC := 1;
           ZF := false;
           COUTF := false;
           MSBF := false;
           LSBF := false;
           PMEM := [9];
           RAM := repeat 0 256;
           stack := [];
           inputPorts := [2; 0; 0; 0];
           outputPorts := [0; 0; 0; 0];
           isWaitingPortInput := false;
           cycle := 1 |}).
Proof.
  intros s.
  apply (port_read_protocol s
           (AsmLine.setOffsetInBytes 0 (statement "PLD" [Register 0; Literal 0]))
           (Register 0) (Literal 0) 0 0 2);
    first [reflexivity | cbn; lia].
Defined.

(** ** Branches (C4) *)

Lemma findIndex_first {A : Type} (p : A -> bool) (a : list A) (j : nat) (x : A) :
  a !! j = Some x ->
  p x = true ->
  (forall (i : nat) (y : A), (i < j)%nat -> a !! i = Some y -> p y = false) ->
  findIndex p a = Z.of_nat j.
Proof.
  revert j. induction a as [| head rest IH]; intros j Hlookup Hp Hearlier.
  - rewrite lookup_nil in Hlookup. discriminate.
  - destruct j as [| j'].
    + cbn in Hlookup. injection Hlookup as ->. cbn [findIndex]. rewrite Hp. reflexivity.
    + cbn in Hlookup. cbn [findIndex].
      rewrite (Hearlier 0%nat head) by (try reflexivity; lia).
      rewrite (IH j' Hlookup Hp).
      * destruct (Z.ltb_spec (Z.of_nat j') 0); lia.
      * intros i y Hlt Hy. apply (Hearlier (S i) y); [lia | exact Hy].
Qed.

Lemma hasOffset_true (destinationOffset : Z) (asmLine : AsmLine.t) :
  hasOffset destinationOffset asmLine = true
  <-> AsmLine.offsetInBytes asmLine = Some destinationOffset.
Proof.
  unfold hasOffset. destruct (AsmLine.offsetInBytes asmLine) as [offset |].
  - rewrite Z.eqb_eq. split; [intros -> | intros [= ->]]; reflexivity.
  - split; discriminate.
Qed.

Lemma hasOffset_false (destinationOffset : Z) (asmLine : AsmLine.t) :
  AsmLine.offsetInBytes asmLine <> Some destinationOffset ->
  hasOffset destinationOffset asmLine = false.
Proof.
  intros Hother. destruct (hasOffset destinationOffset asmLine) eqn:Hhas; [| reflexivity].
  apply hasOffset_true in Hhas. contradiction.
Qed.

(** What [step()] runs on a record the table has a handler for. *)
Lemma step_dispatch (s : ARPUEmulatorState) (line : AsmLine.t)
    (handler : list Operand -> M unit) :
  isWaitingPortInput s = false ->
  currentLine s = Some line ->
  lookup_handler handlers (AsmLine.mnemonic line) = Some handler ->
  step s = handler (AsmLine.operands line) s.
Proof.
  intros Hidle Hline Hhandler.
  unfold step, bind, gets. rewrite Hidle, Hline, Hhandler. reflexivity.
Qed.

(** C4.  On a BRA record whose first operand selects one of the four flags
    (0 = ZF, 1 = COUTF, 2 = MSBF, 3 = LSBF), the jump is taken iff bit 0
    of the second operand is clear, or else the selected flag differs
    from bit 1 of the second operand.  When it is taken, the state after
    the step has PC equal to the third operand and lineIndex equal to the
    index of the (first) record at that offset; when it is not, it has PC
    advanced by 2 and lineIndex by 1.  Either way cycle has advanced by 1
    and every other component is as before. *)
Theorem branch_decision (s : ARPUEmulatorState) (line : AsmLine.t)
    (o0 o1 o2 : Operand) (condition flags target : Z) :
  isWaitingPortInput s = false ->
  currentLine s = Some line ->
  AsmLine.mnemonic line = "BRA" ->
  AsmLine.operands line !! 0%nat = Some o0 ->
  AsmLine.operands line !! 1%nat = Some o1 ->
  AsmLine.operands line !! 2%nat = Some o2 ->
  toInt o0 = Some condition ->
  toInt o1 = Some flags ->
  toInt o2 = Some target ->
  0 <= condition <= 3 ->
  let selected :=
    match condition with
    | 0 => ZF s
    | 1 => COUTF s
    | 2 => MSBF s
    | _ => LSBF s
    end in
  let taken := negb (Z.testbit flags 0) || negb (Bool.eqb selected (Z.testbit flags 1)) in
  shouldJump (AsmLine.operands line) s = (Normal taken, s)
  /\ (taken = true ->
      forall (j : nat) (record : AsmLine.t),
        asmLines s !! j = Some record ->
        AsmLine.offsetInBytes record = Some target ->
        (forall (i : nat) (earlier : AsmLine.t),
            (i < j)%nat -> asmLines s !! i = Some earlier ->
            AsmLine.offsetInBytes earlier <> Some target) ->
        step s
        = (Normal tt,
           {| asmLines := asmLines s;
              lineIndex := Z.of_nat j;
              registers := registers s;
              PC := target;
              ZF := ZF s;
              COUTF := COUTF s;
              MSBF := MSBF s;
              LSBF := LSBF s;
              PMEM := PMEM s;
              RAM := RAM s;
              stack := stack s;
              inputPorts := inputPorts s;
              outputPorts := outputPorts s;
              isWaitingPortInput := isWaitingPortInput s;
              cycle := cycle s + 1 |}))
  /\ (taken = false ->
      step s
      = (Normal tt,
         {| asmLines := asmLines s;
            lineIndex := lineIndex s + 1;
            registers := registers s;
            PC := PC s + 2;
            ZF := ZF s;
            COUTF := COUTF s;
            MSBF := MSBF s;
            LSBF := LSBF s;
            PMEM := PMEM s;
            RAM := RAM s;
            stack := stack s;
            inputPorts := inputPorts s;
            outputPorts := outputPorts s;
            isWaitingPortInput := isWaitingPortInput s;
            cycle := cycle s + 1 |})).
Proof.
  intros Hidle Hline Hmnemonic Hop0 Hop1 Hop2 Hcond Hflags Htarget Hrange selected taken.
  assert (Hdecision : shouldJump (AsmLine.operands line) s = (Normal taken, s)).
  { unfold shouldJump, bind, operandInt. rewrite Hop0, Hop1, Hcond, Hflags.
    cbn [number ret]. unfold isBitSet, taken, selected.
    destruct (Z.testbit flags 0); cbn [negb orb]; [| reflexivity].
    assert (Hcases : condition = 0 \/ condition = 1 \/ condition = 2 \/ condition = 3) by lia.
    destruct Hcases as [-> | [-> | [-> | ->]]]; reflexivity. }
  assert (Hstep : step s = branch (AsmLine.operands line) s).
  { apply step_dispatch; [exact Hidle | exact Hline |]. rewrite Hmnemonic. reflexivity. }
  split; [exact Hdecision | split].
  - intros Htaken j record Hrecord Hoffset Hfirst.
    rewrite Hstep. unfold branch, bind. unfold operandInt at 1.
    rewrite Hop2, Htarget. cbn [number ret]. rewrite Hdecision, Htaken.
    cbn [gets modify].
    rewrite (findIndex_first (hasOffset target) (asmLines s) j record Hrecord).
    + reflexivity.
    + apply hasOffset_true. exact Hoffset.
    + intros i earlier Hlt Hearlier. apply hasOffset_false. eauto.
  - intros Hnot.
    rewrite Hstep. unfold branch, bind. unfold operandInt at 1.
    rewrite Hop2, Htarget. cbn [number ret]. rewrite Hdecision, Hnot.
    reflexivity.
Qed.

Lemma branch_decision_witness :
  let zero := set_ZF true (emulatorOn programBRA) in
  let nonzero := emulatorOn programBRA in
  (shouldJump (AsmLine.operands (statement "BRA" [Literal 0; Literal 1; LabelReference ".branch" (Some 4)])) zero
     = (Normal true, zero)
   /\ step zero
      = (Normal tt,
         {| asmLines := programBRA;
            lineIndex := 2;
            registers := [0; 0; 0; 0];
            PC := 4;
            ZF := true;
            COUTF := false;
            MSBF := false;
            LSBF := false;
            PMEM := [78; 4; 10; 1; 10; 2];
            RAM := repeat 0 256;
            stack := [];
            inputPorts := [0; 0; 0; 0];
            outputPorts := [0; 0; 0; 0];
            isWaitingPortInput := false;
            cycle := 1 |}))
  /\ (shouldJump (AsmLine.operands (statement "BRA" [Literal 0; Literal 1; LabelReference ".branch" (Some 4)])) nonzero
     = (Normal false, nonzero)
   /\ step nonzero
      = (Normal tt,
         {| asmLines := programBRA;
            lineIndex := 1;
            registers := [0; 0; 0; 0];
            PC := 2;
            ZF := false;
            COUTF := false;
            MSBF := false;
            LSBF := false;
            PMEM := [78; 4; 10; 1; 10; 2];
            RAM := repeat 0 256;
            stack := [];
            inputPorts := [0; 0; 0; 0];
            outputPorts := [0; 0; 0; 0];
            isWaitingPortInput := false;
            cycle := 1 |})).
Proof.
  intros zero nonzero. split.
  - destruct (branch_decision zero
                (AsmLine.setOffsetInBytes 0
                   (statement "BRA" [Literal 0; Literal 1; LabelReference ".branch" (Some 4)]))
                (Literal 0) (Literal 1) (LabelReference ".branch" (Some 4)) 0 1 4
                eq_refl eq_refl eq_refl eq_refl eq_refl eq_refl eq_refl eq_refl eq_refl
                ltac:(lia))
      as [Hdecision [Htaken _]].
    split; [exact Hdecision |].
    apply (Htaken eq_refl 2%nat
             (AsmLine.setOffsetInBytes 4
                (AsmLine.setLabel ".branch" (statement "IMM" [Register 0; Literal 0; Literal 2])))).
    + reflexivity.
    + reflexivity.
    + intros i earlier Hlt Hearlier.
      destruct i as [| [| i']]; [| | lia];
        cbn in Hearlier; injection Hearlier as <-; discriminate.
  - destruct (branch_decision nonzero
                (AsmLine.setOffsetInBytes 0
                   (statement "BRA" [Literal 0; Literal 1; LabelReference ".branch" (Some 4)]))
                (Literal 0) (Literal 1) (LabelReference ".branch" (Some 4)) 0 1 4
                eq_refl eq_refl eq_refl eq_refl eq_refl eq_refl eq_refl eq_refl eq_refl
                ltac:(lia))
      as [Hdecision [_ Hnot]].
    split; [exact Hdecision | exact (Hnot eq_refl)].
Defined.

(** ** Where the emulator and its test-suite part (C1, C3, C7) *)

(** C1.  One step of [IMM 0 0 42] from the fresh state completes with
    registers [42,0,0,0], PC = 2 and lineIndex = 1: PC advances by the 2
    bytes of the record.  [loadImmediate] adds 1 to cycle, though, so the
    cycle is 1 and not the 2 the scenario has. *)
Theorem step_IMM_counts_one_cycle :
  exists s',
    step (emulatorOn programIMM) = (Normal tt, s')
    /\ registers s' = [42; 0; 0; 0]
    /\ PC s' = 2
    /\ lineIndex s' = 1
    /\ cycle s' = 1.
Proof.
  eexists. split; [vm_compute; reflexivity |].
  repeat split.
Qed.

(** C3.  One step of the pop [SOP R1 2] with R1 = 42 and an empty stack
    completes: nothing is thrown, R1 receives the default 0, and PC,
    lineIndex and cycle advance by 1. *)
Theorem pop_of_empty_stack_writes_zero :
  let s := set_registers [42; 0; 0; 0] (emulatorOn programSOP) in
  exists s',
    step s = (Normal tt, s')
    /\ registers s' = [0; 0; 0; 0]
    /\ stack s' = []
    /\ PC s' = 1 /\ lineIndex s' = 1 /\ cycle s' = 1.
Proof.
  eexists. split; [vm_compute; reflexivity |].
  repeat split.
Qed.

(** C7.  One step of [INC R1 R2] with R2 = 42 completes with registers
    [1,42,0,0]: [increment] adds 1 to the register of the first operand
    and does not read the second.  No flag is assigned: LSBF stays false. *)
Theorem increment_ignores_source_and_flags :
  let s := set_registers [0; 42; 0; 0] (emulatorOn programINC) in
  exists s',
    step s = (Normal tt, s')
    /\ registers s' = [1; 42; 0; 0]
    /\ ZF s' = false /\ MSBF s' = false /\ LSBF s' = false
    /\ PC s' = 1 /\ lineIndex s' = 1 /\ cycle s' = 1.
Proof.
  eexists. split; [vm_compute; reflexivity |].
  repeat split.
Qed.

(** ** Encoding of a record (C8) *)

Lemma toInt32_small (z : Z) : - 2 ^ 31 <= z < 2 ^ 31 -> toInt32 z = z.
Proof.
  intros Hrange. unfold toInt32. rewrite Z.mod_small; lia.
Qed.

Lemma shiftLeft_small (x n : Z) :
  0 <= n -> Z.land n 31 = n -> 0 <= x -> x * 2 ^ n < 2 ^ 31 ->
  shiftLeft (Some x) n = x * 2 ^ n.
Proof.
  intros Hn Hmask Hx Hfit. unfold shiftLeft.
  change (default 0 (Some x)) with x. rewrite Hmask.
  assert (Hpow : 1 <= 2 ^ n) by (apply (Z.pow_le_mono_r 2 0 n); lia).
  rewrite (toInt32_small x) by nia.
  rewrite Z.shiftl_mul_pow2 by exact Hn.
  apply toInt32_small. nia.
Qed.

Lemma shiftLeft_undefined (n : Z) : shiftLeft None n = 0.
Proof.
  unfold shiftLeft. change (default 0 None) with 0.
  change (toInt32 0) with 0. rewrite Z.shiftl_0_l. reflexivity.
Qed.

Lemma no_undefined_among_resolved (ints : list Z) :
  existsb (fun integer : option Z => match integer with None => true | Some _ => false end)
          (map Some ints) = false.
Proof.
  induction ints as [| head rest IH]; [reflexivity | exact IH].
Qed.

Lemma lookup_resolved (ints : list Z) (i : nat) :
  mjoin (map Some ints !! i) = ints !! i.
Proof.
  change (map Some ints) with (Some <$> ints).
  rewrite list_lookup_fmap. destruct (ints !! i); reflexivity.
Qed.

(** The three fields of a byte put together from two 2-bit operands and a
    4-bit opcode. *)
Lemma packed_fields (operand1 operand0 opcode : Z) :
  0 <= operand1 < 4 -> 0 <= operand0 < 4 -> 0 <= opcode < 16 ->
  let byte := operand1 * 64 + operand0 * 16 + opcode in
  0 <= byte < 256
  /\ Z.land (Z.shiftr byte 6) 3 = operand1
  /\ Z.land (Z.shiftr byte 4) 3 = operand0
  /\ Z.land byte 15 = opcode.
Proof.
  intros H1 H0 Hop byte.
  change 3 with (Z.ones 2). change 15 with (Z.ones 4).
  rewrite !Z.land_ones, !Z.shiftr_div_pow2 by lia.
  change (2 ^ 6) with 64. change (2 ^ 4) with 16. change (2 ^ 2) with 4.
  subst byte. repeat split; try lia.
  - Z.div_mod_to_equations. lia.
  - Z.div_mod_to_equations. lia.
  - Z.div_mod_to_equations. lia.
Qed.

(** C8, as the code has it.  For a record whose operands are all resolved,
    [getBytes()] returns a first byte that is the second operand (0 when
    absent) shifted left by 6, plus the first operand shifted left by 4,
    plus the opcode, followed by the third operand, verbatim, when there
    is one.  With operands of two bits and an opcode of the table of 16
    mnemonics the byte is below 256, bits 6-7 hold the second operand,
    bits 4-5 the first and bits 0-3 the opcode.  The literal of a data
    directive comes raw, without opcode, from [getDataValue()]. *)
Theorem getBytes_packing (line : AsmLine.t) (ints : list Z) :
  map toInt (AsmLine.operands line) = map Some ints ->
  let operand0 := ints !! 0%nat in
  let operand1 := default 0 (ints !! 1%nat) in
  let byte1 := shiftLeft (Some operand1) 6 + shiftLeft operand0 4 + AsmLine.opcode line in
  AsmLine.getBytes line
  = inr (byte1 :: match ints !! 2%nat with Some third => [third] | None => [] end)
  /\ (0 <= default 0 operand0 < 4 -> 0 <= operand1 < 4 -> 0 <= AsmLine.opcode line < 16 ->
      byte1 = operand1 * 64 + default 0 operand0 * 16 + AsmLine.opcode line
      /\ 0 <= byte1 < 256
      /\ Z.land (Z.shiftr byte1 6) 3 = operand1
      /\ Z.land (Z.shiftr byte1 4) 3 = default 0 operand0
      /\ Z.land byte1 15 = AsmLine.opcode line)
  /\ (AsmLine.isData line = true ->
      forall value : Z, ints = [value] -> AsmLine.getDataValue line = inr (Some value)).
Proof.
  intros Hresolved operand0 operand1 byte1.
  split; [| split].
  - unfold AsmLine.getBytes. rewrite Hresolved.
    rewrite no_undefined_among_resolved, !lookup_resolved.
    fold operand0. fold operand1. fold byte1.
    destruct (ints !! 2%nat); reflexivity.
  - intros H0 H1 Hopcode.
    assert (Hbyte : byte1 = operand1 * 64 + default 0 operand0 * 16 + AsmLine.opcode line).
    { unfold byte1.
      rewrite (shiftLeft_small operand1 6) by (try reflexivity; lia).
      destruct operand0 as [first |]; cbn [from_option id] in *.
      - rewrite (shiftLeft_small first 4) by (try reflexivity; lia). reflexivity.
      - rewrite shiftLeft_undefined. lia. }
    split; [exact Hbyte |]. rewrite Hbyte.
    apply packed_fields; assumption.
  - intros Hdata value Hints. subst ints.
    unfold AsmLine.getDataValue. rewrite Hdata.
    destruct (AsmLine.operands line) as [| operand others]; [discriminate |].
    cbn in Hresolved. injection Hresolved as Hoperand _.
    cbn. rewrite Hoperand. reflexivity.
Qed.

Lemma getBytes_packing_witness :
  (AsmLine.getBytes (statement "BRA" [Literal 0; Literal 1; LabelReference ".branch" (Some 4)])
   = inr [78; 4]
   /\ Z.land (Z.shiftr 78 6) 3 = 1 /\ Z.land (Z.shiftr 78 4) 3 = 0 /\ Z.land 78 15 = 14)
  /\ AsmLine.getDataValue (statement "DW" [Literal 5]) = inr (Some 5).
Proof.
  split.
  - destruct (getBytes_packing
                (statement "BRA" [Literal 0; Literal 1; LabelReference ".branch" (Some 4)])
                [0; 1; 4] eq_refl) as [Hbytes [Hfields _]].
    split; [exact Hbytes |].
    destruct Hfields as [_ [_ Hbits]];
      [ vm_compute; split; first [discriminate | reflexivity] .. | exact Hbits ].
  - destruct (getBytes_packing (statement "DW" [Literal 5]) [5] eq_refl) as [_ [_ Hdata]].
    apply Hdata; reflexivity.
Defined.

(** C8, as the specification has it, fails on a data directive:
    [getBytes()] has no case for it, and packs [DW 5] like an instruction
    whose opcode is the -1 that [findIndex] returned. *)
Lemma getBytes_of_data_directive_is_packed :
  AsmLine.isData (statement "DW" [Literal 5]) = true
  /\ AsmLine.getBytes (statement "DW" [Literal 5]) = inr [79]
  /\ AsmLine.getBytes (statement "DW" [Literal 5]) <> inr [5].
Proof.
  split; [reflexivity | split; [reflexivity | discriminate]].
Qed.

(** ** The halt condition (C9) *)

Lemma sameLabel_true (a b : option string) : AsmLine.sameLabel a b = true <-> a = b.
Proof.
  destruct a as [x |], b as [y |]; cbn [AsmLine.sameLabel].
  - rewrite String.eqb_eq. split; [intros -> | intros [= ->]]; reflexivity.
  - split; discriminate.
  - split; discriminate.
  - split; reflexivity.
Qed.

(** C9, as the code has it.  [isHalt()] is a function of the record, not
    a stored field.  A return is a halt iff its first operand is there and
    is the literal 1.  A branch that carries a label, or whose third
    operand refers to one, is a halt iff that operand refers to the very
    label name the record carries: names are compared, the offset of the
    target is not looked at.  No other record is a halt.  (Nothing is said
    here of a branch with neither a label nor a reference.) *)
Theorem isHalt_compares_label_names (line : AsmLine.t) :
  (AsmLine.mnemonic line = "BRA" ->
   exists target : Operand,
     AsmLine.operands line !! 2%nat = Some target
     /\ (is_Some (getLabel target) \/ is_Some (AsmLine.label line))) ->
  exists halt : bool,
    AsmLine.isHalt line = inr halt
    /\ (halt = true <->
        (AsmLine.mnemonic line = "BRA"
         /\ exists (target : Operand) (name : string),
              AsmLine.operands line !! 2%nat = Some target
              /\ getLabel target = Some name
              /\ AsmLine.label line = Some name)
        \/ (AsmLine.mnemonic line = "RET"
            /\ exists first : Operand,
                 AsmLine.operands line !! 0%nat = Some first
                 /\ toInt first = Some 1)).
Proof.
  intros Hthird. unfold AsmLine.isHalt.
  destruct (String.eqb_spec (AsmLine.mnemonic line) "BRA") as [Hbra | Hother].
  - destruct (Hthird Hbra) as [target [Htarget Hnamed]]. rewrite Htarget.
    rewrite Hbra. cbn [String.eqb Ascii.eqb Bool.eqb andb].
    eexists. split; [reflexivity |].
    rewrite orb_false_r, sameLabel_true. split.
    + intros Hsame. left. split; [reflexivity |].
      destruct Hnamed as [[name Hname] | [name Hname]].
      * exists target, name. rewrite <- Hsame. auto.
      * exists target, name. rewrite Hsame. auto.
    + intros [[_ [target' [name [Hlookup [Hoperand Hrecord]]]]] | [Hret _]]; [| discriminate].
      injection Hlookup as <-. congruence.
  - eexists. split; [reflexivity |]. cbn [orb]. split.
    + intros Hhalt. apply andb_true_iff in Hhalt as [Hret Hone].
      apply String.eqb_eq in Hret. right. split; [exact Hret |].
      destruct (AsmLine.operands line !! 0%nat) as [first |]; [| discriminate].
      cbn in Hone. destruct (toInt first) as [value |] eqn:Hvalue; [| discriminate].
      apply Z.eqb_eq in Hone as ->. exists first. split; [reflexivity | exact Hvalue].
    + intros [[Hbra _] | [Hret [first [Hlookup Hone]]]]; [contradiction |].
      rewrite Hret, Hlookup. cbn. rewrite Hone. reflexivity.
Qed.

Lemma isHalt_compares_label_names_witness :
  (exists halt : bool,
     AsmLine.isHalt
       (AsmLine.setLabel ".loop"
          (statement "BRA" [Literal 0; Literal 0; LabelReference ".loop" None]))
     = inr halt
     /\ (halt = true <->
         ("BRA" = "BRA"
          /\ exists (target : Operand) (name : string),
               [Literal 0; Literal 0; LabelReference ".loop" None] !! 2%nat = Some target
               /\ getLabel target = Some name
               /\ Some ".loop" = Some name)
         \/ ("BRA" = "RET"
             /\ exists first : Operand,
                  [Literal 0; Literal 0; LabelReference ".loop" None] !! 0%nat = Some first
                  /\ toInt first = Some 1)))
  /\ (exists halt : bool,
        AsmLine.isHalt
          (AsmLine.setOffsetInBytes 0
             (AsmLine.setLabel ".loop" (statement "BRA" [Literal 0; Literal 0; Literal 0])))
        = inr halt
        /\ (halt = true <->
            ("BRA" = "BRA"
             /\ exists (target : Operand) (name : string),
                  [Literal 0; Literal 0; Literal 0] !! 2%nat = Some target
                  /\ getLabel target = Some name
                  /\ Some ".loop" = Some name)
            \/ ("BRA" = "RET"
                /\ exists first : Operand,
                     [Literal 0; Literal 0; Literal 0] !! 0%nat = Some first
                     /\ toInt first = Some 1))).
Proof.
  split.
  - apply (isHalt_compares_label_names
             (AsmLine.setLabel ".loop"
                (statement "BRA" [Literal 0; Literal 0; LabelReference ".loop" None]))).
    intros _. exists (LabelReference ".loop" None).
    split; [reflexivity |]. left. exists ".loop". reflexivity.
  - apply (isHalt_compares_label_names
             (AsmLine.setOffsetInBytes 0
                (AsmLine.setLabel ".loop" (statement "BRA" [Literal 0; Literal 0; Literal 0])))).
    intros _. exists (Literal 0).
    split; [reflexivity |]. right. exists ".loop". reflexivity.
Defined.

(** C9, as the specification has it, fails on a labelled branch whose
    target is written as a literal: [.loop] / [BRA 0 0 0] at offset 0
    jumps to itself, and [isHalt()] is false, the operand carrying no
    label name. *)
Lemma isHalt_misses_literal_self_loop :
  let line :=
    AsmLine.setOffsetInBytes 0
      (AsmLine.setLabel ".loop" (statement "BRA" [Literal 0; Literal 0; Literal 0])) in
  AsmLine.isHalt line = inr false /\ haltBySpec line = true.
Proof.
  split; reflexivity.
Qed.

(** ** The two position counters (C1, C2) *)

(** Running a handler by cases on everything it inspects, in a hypothesis
    [H] that says how the call completed. *)
Ltac run_cases H :=
  repeat (
    cbv beta iota delta
      [bind ret gets modify throw untyped number operandInt readRegister
       writeRegister addPC addLineIndex addCycle] in H;
    match type of H with
    | context [match ?scrutinee with _ => _ end] =>
        lazymatch scrutinee with
        | context [match _ with _ => _ end] => fail
        | _ => idtac
        end;
        let E := fresh "E" in destruct scrutinee eqn:E; try discriminate H
    end).

Ltac run_handler H := run_cases H; injection H as <-.

Lemma increment_moves (operands : list Operand) (s s' : ARPUEmulatorState) :
  increment operands s = (Normal tt, s') -> moved s s' 1 1.
Proof.
  intros H. unfold increment in H. run_handler H; split; reflexivity.
Qed.

Lemma loadImmediate_moves (operands : list Operand) (s s' : ARPUEmulatorState) :
  loadImmediate operands s = (Normal tt, s') -> moved s s' 2 1.
Proof.
  intros H. unfold loadImmediate in H. run_handler H; split; reflexivity.
Qed.

Lemma portStore_moves (operands : list Operand) (s s' : ARPUEmulatorState) :
  portStore operands s = (Normal tt, s') -> moved s s' 1 1.
Proof.
  intros H. unfold portStore in H. run_handler H; split; reflexivity.
Qed.

Lemma stackOperation_moves (operands : list Operand) (s s' : ARPUEmulatorState) :
  stackOperation operands s = (Normal tt, s') -> moved s s' 1 1.
Proof.
  intros H. unfold stackOperation in H. run_handler H; split; reflexivity.
Qed.

Lemma portLoad_waits (operands : list Operand) (s s' : ARPUEmulatorState) :
  portLoad operands s = (Normal tt, s') -> s' = set_isWaitingPortInput true s.
Proof.
  intros H. unfold portLoad, modify in H. injection H as <-. reflexivity.
Qed.

Lemma branch_moves (operands : list Operand) (s s' : ARPUEmulatorState) :
  branch operands s = (Normal tt, s') ->
  moved s s' 2 1
  \/ exists (third : Operand) (target : Z),
       operands !! 2%nat = Some third /\ toInt third = Some target /\ jumped s s' target.
Proof.
  intros H. unfold branch, shouldJump in H.
  run_handler H;
    first
      [ left; split; reflexivity
      | right; do 2 eexists;
        split; [reflexivity | split; [eassumption | split; reflexivity]] ].
Qed.

Lemma portInput_moves (value : Z) (s s' : ARPUEmulatorState) :
  portInput value s = (Normal tt, s') ->
  moved s s' 1 1
  /\ exists line : AsmLine.t, currentLine s = Some line /\ AsmLine.mnemonic line = "PLD".
Proof.
  intros H. unfold portInput in H. run_handler H.
  split; [split; reflexivity |].
  eexists. split; [reflexivity |].
  apply String.eqb_eq. apply negb_false_iff. assumption.
Qed.

Lemma handlers_cases (mnemonic : string) (handler : list Operand -> M unit) :
  lookup_handler handlers mnemonic = Some handler ->
  (mnemonic = "INC" /\ handler = increment)
  \/ (mnemonic = "IMM" /\ handler = loadImmediate)
  \/ (mnemonic = "PLD" /\ handler = portLoad)
  \/ (mnemonic = "PST" /\ handler = portStore)
  \/ (mnemonic = "BRA" /\ handler = branch)
  \/ (mnemonic = "SOP" /\ handler = stackOperation).
Proof.
  unfold handlers. cbn [lookup_handler].
  repeat match goal with
         | |- context [String.eqb ?key mnemonic] =>
             destruct (String.eqb_spec key mnemonic) as [<- | _];
             [intros [= <-]; tauto |]
         end.
  discriminate.
Qed.

(** A completed [step()] has run the handler of the current record. *)
Lemma step_completed (s s' : ARPUEmulatorState) :
  step s = (Normal tt, s') ->
  isWaitingPortInput s = false
  /\ exists (line : AsmLine.t) (handler : list Operand -> M unit),
       currentLine s = Some line
       /\ lookup_handler handlers (AsmLine.mnemonic line) = Some handler
       /\ handler (AsmLine.operands line) s = (Normal tt, s').
Proof.
  intros H. unfold step, bind, gets in H.
  destruct (isWaitingPortInput s); [discriminate H |].
  destruct (currentLine s) as [line |]; [| discriminate H].
  destruct (lookup_handler handlers (AsmLine.mnemonic line)) as [handler |] eqn:Hhandler;
    [| discriminate H].
  split; [reflexivity |]. exists line, handler. auto.
Qed.

Lemma laidOut_layout (start : Z) (lines : list AsmLine.t) :
  laidOut start (layout start lines) = true.
Proof.
  revert start. induction lines as [| line rest IH]; intros start; [reflexivity |].
  cbn [layout laidOut]. apply andb_true_iff. split.
  - apply hasOffset_true. reflexivity.
  - apply IH.
Qed.

Lemma laidOut_successor (lines : list AsmLine.t) (start : Z) (i : nat) (line : AsmLine.t) :
  laidOut start lines = true ->
  lines !! i = Some line ->
  exists offset : Z,
    AsmLine.offsetInBytes line = Some offset
    /\ match lines !! S i with
       | Some next => AsmLine.offsetInBytes next = Some (offset + AsmLine.sizeInBytes line)
       | None => S i = List.length lines
                 /\ offset + AsmLine.sizeInBytes line = start + byteSize lines
       end.
Proof.
  revert start i. induction lines as [| head rest IH]; intros start i Hlaid Hline.
  - rewrite lookup_nil in Hline. discriminate.
  - cbn [laidOut] in Hlaid. apply andb_true_iff in Hlaid as [Hhead Hrest].
    destruct i as [| i'].
    + cbn in Hline. injection Hline as <-.
      exists start. split; [apply hasOffset_true; exact Hhead |].
      destruct rest as [| next rest']; cbn.
      * split; [reflexivity | lia].
      * cbn [laidOut] in Hrest. apply andb_true_iff in Hrest as [Hnext _].
        apply hasOffset_true. exact Hnext.
    + cbn in Hline. destruct (IH _ _ Hrest Hline) as [offset [Hoffset Hnext]].
      exists offset. split; [exact Hoffset |].
      change ((head :: rest) !! S (S i')) with (rest !! S i').
      destruct (rest !! S i') as [next |].
      * exact Hnext.
      * destruct Hnext as [Hlen Hsum]. cbn [List.length byteSize]. split; lia.
Qed.

Lemma findIndex_existsb {A : Type} (p : A -> bool) (a : list A) :
  existsb p a = true ->
  exists x : A, at_index a (findIndex p a) = Some x /\ p x = true.
Proof.
  induction a as [| head rest IH]; [discriminate |].
  cbn [existsb findIndex]. destruct (p head) eqn:Hhead.
  - intros _. exists head. split; [reflexivity | exact Hhead].
  - cbn [orb]. intros Hrest. destruct (IH Hrest) as [x [Hx Hp]].
    exists x. split; [| exact Hp].
    apply at_index_Some in Hx as [Hrange Hlookup].
    destruct (Z.ltb_spec (findIndex p rest) 0) as [Hneg | _]; [lia |].
    rewrite at_index_nat by lia.
    replace (Z.to_nat (findIndex p rest + 1)) with (S (Z.to_nat (findIndex p rest))) by lia.
    exact Hlookup.
Qed.

(** The size of a well-formed record is what its handler adds to PC. *)
Lemma wellFormed_size (line : AsmLine.t) (handler : list Operand -> M unit) :
  wellFormed line = true ->
  lookup_handler handlers (AsmLine.mnemonic line) = Some handler ->
  AsmLine.sizeInBytes line
  = if existsb (String.eqb (AsmLine.mnemonic line)) EXTRA_BYTE_INSTRUCTIONS then 2 else 1.
Proof.
  unfold wellFormed. intros Hwf Hhandler. rewrite Hhandler in Hwf.
  apply andb_true_iff in Hwf as [Hsize Harity].
  apply Z.eqb_eq in Hsize. apply Bool.eqb_prop in Harity.
  rewrite Hsize, Harity. reflexivity.
Qed.

(** After a move of one record and of its size in bytes, the counters
    agree again, or both are past the end. *)
Lemma lockstep_after_move (s s' : ARPUEmulatorState) (line : AsmLine.t) :
  laidOut 0 (asmLines s) = true ->
  currentLine s = Some line ->
  inLockstep s ->
  asmLines s' = asmLines s ->
  PC s' = PC s + AsmLine.sizeInBytes line ->
  lineIndex s' = lineIndex s + 1 ->
  inLockstep s' \/ pastEnd s'.
Proof.
  intros Hlaid Hline Hlock Hprogram HPC Hindex.
  unfold inLockstep in Hlock. rewrite Hline in Hlock. cbn in Hlock.
  unfold currentLine in Hline. apply at_index_Some in Hline as [Hrange Hlookup].
  destruct (laidOut_successor _ _ _ _ Hlaid Hlookup) as [offset [Hoffset Hnext]].
  rewrite Hoffset in Hlock. injection Hlock as ->.
  unfold inLockstep, pastEnd, currentLine. rewrite Hprogram, HPC, Hindex.
  rewrite at_index_nat by lia.
  replace (Z.to_nat (lineIndex s + 1)) with (S (Z.to_nat (lineIndex s))) by lia.
  destruct (asmLines s !! S (Z.to_nat (lineIndex s))) as [next |].
  - left. cbn. exact Hnext.
  - right. destruct Hnext as [Hlen Hsum]. split; lia.
Qed.

Lemma current_line_in_program (s : ARPUEmulatorState) (line : AsmLine.t) :
  currentLine s = Some line -> In line (asmLines s).
Proof.
  intros Hline. apply at_index_Some in Hline as [_ Hlookup].
  apply list_elem_of_In. exact (list_elem_of_lookup_2 _ _ _ Hlookup).
Qed.

(** One completed call keeps the program, and keeps the counters in
    lockstep or takes them past the end. *)
Lemma lockstep_kept (s s' : ARPUEmulatorState) :
  assembled (asmLines s) = true ->
  inLockstep s ->
  (step s = (Normal tt, s') \/ exists value : Z, portInput value s = (Normal tt, s')) ->
  asmLines s' = asmLines s /\ (inLockstep s' \/ pastEnd s').
Proof.
  intros Hassembled Hlock Hcall.
  unfold assembled in Hassembled.
  apply andb_true_iff in Hassembled as [Hassembled Htargets].
  apply andb_true_iff in Hassembled as [Hwf Hlaid].
  rewrite forallb_forall in Hwf.
  destruct Hcall as [Hstep | [value Hinput]].
  - destruct (step_completed _ _ Hstep) as [_ [line [handler [Hline [Hhandler Hrun]]]]].
    pose proof (current_line_in_program _ _ Hline) as Hin.
    pose proof (wellFormed_size _ _ (Hwf _ Hin) Hhandler) as Hsize.
    destruct (handlers_cases _ _ Hhandler)
      as [[Hm ->] | [[Hm ->] | [[Hm ->] | [[Hm ->] | [[Hm ->] | [Hm ->]]]]]];
      rewrite Hm in Hsize; cbn in Hsize.
    + apply increment_moves in Hrun as [Hp HPC Hidx _].
      split; [exact Hp |].
      apply (lockstep_after_move s s' line); try assumption. rewrite Hsize. exact HPC.
    + apply loadImmediate_moves in Hrun as [Hp HPC Hidx _].
      split; [exact Hp |].
      apply (lockstep_after_move s s' line); try assumption. rewrite Hsize. exact HPC.
    + apply portLoad_waits in Hrun as ->.
      split; [reflexivity | left; exact Hlock].
    + apply portStore_moves in Hrun as [Hp HPC Hidx _].
      split; [exact Hp |].
      apply (lockstep_after_move s s' line); try assumption. rewrite Hsize. exact HPC.
    + apply branch_moves in Hrun
        as [[Hp HPC Hidx _] | [third [target [Hthird [Htarget [Hp HPC Hidx _]]]]]].
      * split; [exact Hp |].
        apply (lockstep_after_move s s' line); try assumption. rewrite Hsize. exact HPC.
      * split; [exact Hp |]. left.
        unfold targetsExist in Htargets. rewrite forallb_forall in Htargets.
        specialize (Htargets _ Hin). rewrite Hm, Hthird in Htargets.
        cbn in Htargets. rewrite Htarget in Htargets.
        destruct (findIndex_existsb _ _ Htargets) as [record [Hrecord Hoffset]].
        apply hasOffset_true in Hoffset.
        unfold inLockstep, currentLine. rewrite Hp, Hidx, Hrecord, HPC. exact Hoffset.
    + apply stackOperation_moves in Hrun as [Hp HPC Hidx _].
      split; [exact Hp |].
      apply (lockstep_after_move s s' line); try assumption. rewrite Hsize. exact HPC.
  - apply portInput_moves in Hinput as [[Hp HPC Hidx _] [line [Hline Hm]]].
    pose proof (current_line_in_program _ _ Hline) as Hin.
    assert (Hhandler : lookup_handler handlers (AsmLine.mnemonic line) = Some portLoad)
      by (rewrite Hm; reflexivity).
    pose proof (wellFormed_size _ _ (Hwf _ Hin) Hhandler) as Hsize.
    rewrite Hm in Hsize. cbn in Hsize.
    split; [exact Hp |].
    apply (lockstep_after_move s s' line); try assumption. rewrite Hsize. exact HPC.
Qed.

(** Past the end there is no record, and no call completes. *)
Lemma pastEnd_no_line (s : ARPUEmulatorState) : pastEnd s -> currentLine s = None.
Proof.
  intros [Hindex _]. unfold currentLine. rewrite Hindex.
  rewrite at_index_nat by lia. rewrite Nat2Z.id.
  apply lookup_ge_None_2. lia.
Qed.

Lemma pastEnd_stuck (s s' : ARPUEmulatorState) :
  pastEnd s ->
  (step s = (Normal tt, s') \/ exists value : Z, portInput value s = (Normal tt, s')) ->
  False.
Proof.
  intros Hend [Hstep | [value Hinput]];
    pose proof (pastEnd_no_line _ Hend) as Hnone.
  - destruct (step_completed _ _ Hstep) as [_ [line [_ [Hline _]]]]. congruence.
  - destruct (portInput_moves _ _ _ Hinput) as [_ [line [Hline _]]]. congruence.
Qed.

(** C2, as the code has it.  Take a program laid out by the assembler,
    with well-formed records and branch targets that exist, and a state
    in which PC is the offset of the record at lineIndex.  In every state
    that completed [step()] and [portInput] calls reach from there, the
    program is the same and PC is again the offset of the record at
    lineIndex, or the state is the one past the last record, where
    lineIndex is the number of records and PC the size of the program. *)
Theorem lockstep_along_runs (start s : ARPUEmulatorState) :
  assembled (asmLines start) = true ->
  inLockstep start ->
  reachable start s ->
  asmLines s = asmLines start /\ (inLockstep s \/ pastEnd s).
Proof.
  intros Hassembled Hlock Hrun.
  induction Hrun as [| s s' _ [Hprogram Hposition] Hstep
                      | s s' value _ [Hprogram Hposition] Hinput].
  - split; [reflexivity | left; exact Hlock].
  - destruct Hposition as [Hs | Hend].
    + rewrite <- Hprogram in Hassembled.
      destruct (lockstep_kept s s' Hassembled Hs (or_introl Hstep)) as [Hsame Hnext].
      split; [congruence | exact Hnext].
    + exfalso. apply (pastEnd_stuck s s' Hend). left. exact Hstep.
  - destruct Hposition as [Hs | Hend].
    + rewrite <- Hprogram in Hassembled.
      destruct (lockstep_kept s s' Hassembled Hs (or_intror (ex_intro _ value Hinput)))
        as [Hsame Hnext].
      split; [congruence | exact Hnext].
    + exfalso. apply (pastEnd_stuck s s' Hend). right. exists value. exact Hinput.
Qed.

Lemma lockstep_along_runs_witness :
  let start := set_ZF true (emulatorOn programBRA) in
  let s := set_cycle 2 (set_lineIndex 3 (set_PC 6 (set_registers [2; 0; 0; 0]
             (set_cycle 1 (set_lineIndex 2 (set_PC 4 start)))))) in
  asmLines s = asmLines start /\ (inLockstep s \/ pastEnd s).
Proof.
  intros start s. apply (lockstep_along_runs start s).
  - reflexivity.
  - reflexivity.
  - apply (reachable_step start (set_cycle 1 (set_lineIndex 2 (set_PC 4 start)))).
    + apply (reachable_step start start).
      * apply reachable_start.
      * reflexivity.
    + reflexivity.
Defined.

(** C2, as the specification has it, fails on the last record of a
    program: after the one step of [IMM 0 0 42] lineIndex is 1 and the
    program has no record 1 whose offset PC could equal. *)
Lemma lockstep_lost_past_last_record :
  let s := emulatorOn programIMM in
  assembled (asmLines s) = true
  /\ inLockstep s
  /\ exists s' : ARPUEmulatorState,
       step s = (Normal tt, s') /\ currentLine s' = None /\ ~ inLockstep s'.
Proof.
  split; [reflexivity | split; [reflexivity |]].
  eexists. split; [vm_compute; reflexivity |].
  split; [reflexivity | discriminate].
Qed.

(** Every handler but that of PLD adds 1 to cycle, whatever the size of
    the record. *)
Lemma step_counts_one_cycle (s s' : ARPUEmulatorState) (line : AsmLine.t) :
  step s = (Normal tt, s') ->
  currentLine s = Some line ->
  AsmLine.mnemonic line <> "PLD" ->
  cycle s' = cycle s + 1.
Proof.
  intros Hstep Hline Hother.
  destruct (step_completed _ _ Hstep) as [_ [line' [handler [Hline' [Hhandler Hrun]]]]].
  rewrite Hline in Hline'. injection Hline' as <-.
  destruct (handlers_cases _ _ Hhandler)
    as [[Hm ->] | [[Hm ->] | [[Hm ->] | [[Hm ->] | [[Hm ->] | [Hm ->]]]]]].
  - apply increment_moves in Hrun. apply Hrun.
  - apply loadImmediate_moves in Hrun. apply Hrun.
  - contradiction.
  - apply portStore_moves in Hrun. apply Hrun.
  - apply branch_moves in Hrun as [Hmoved | [third [target [_ [_ Hjumped]]]]].
    + apply Hmoved.
    + apply Hjumped.
  - apply stackOperation_moves in Hrun. apply Hrun.
Qed.

(** ** What the handlers do where the test-suite expects more (C3, C7) *)

(** [registers[i]++] and the wrap that follows: the register of the first
    operand is incremented in place, and is 0 when that reaches
    [WORD_SIZE]; no other operand is read and no flag is assigned. *)
Lemma increment_in_place (operands : list Operand) (s : ARPUEmulatorState)
    (first : Operand) (index old : Z) :
  operands !! 0%nat = Some first ->
  toInt first = Some index ->
  at_index (registers s) index = Some old ->
  increment operands s
  = (Normal tt,
     set_cycle (cycle s + 1)
       (set_lineIndex (lineIndex s + 1)
          (set_PC (PC s + 1)
             (set_registers
                (<[Z.to_nat index := if old + 1 >=? WORD_SIZE then 0 else old + 1]>
                   (registers s)) s)))).
Proof.
  intros Hfirst Hindex Hold.
  pose proof (at_index_Some _ _ _ Hold) as [Hrange Hlookup].
  unfold increment, bind, operandInt. rewrite Hfirst, Hindex. cbn [number ret].
  unfold readRegister at 1. unfold bind, gets. rewrite Hold. cbn [number ret].
  unfold writeRegister at 1. unfold bind, gets, modify.
  rewrite (assign_index_inside _ _ (old + 1) Hrange). cbn [number ret].
  unfold readRegister, bind, gets. cbn [registers set_registers].
  rewrite at_index_nat by lia.
  rewrite list_lookup_insert_eq by lia. cbn [number ret].
  destruct (old + 1 >=? WORD_SIZE).
  - unfold writeRegister, bind, gets, modify. cbn [registers set_registers].
    rewrite assign_index_inside by (rewrite length_insert; exact Hrange).
    cbn [number ret]. rewrite list_insert_insert_eq. reflexivity.
  - reflexivity.
Qed.

Lemma pop_snoc (below : list Z) (top : Z) : pop (below ++ [top]) = (Some top, below).
Proof.
  unfold pop. rewrite last_snoc, removelast_last. reflexivity.
Qed.

(** A push appends the value of the source register to the stack. *)
Lemma stackOperation_push (operands : list Operand) (s : ARPUEmulatorState)
    (first second : Operand) (sourceRegisterIndex valueToPush : Z) :
  operands !! 0%nat = Some first ->
  operands !! 1%nat = Some second ->
  toInt first = Some sourceRegisterIndex ->
  toInt second = Some 0 ->
  at_index (registers s) sourceRegisterIndex = Some valueToPush ->
  stackOperation operands s
  = (Normal tt,
     set_cycle (cycle s + 1)
       (set_lineIndex (lineIndex s + 1)
          (set_PC (PC s + 1) (set_stack (stack s ++ [valueToPush]) s)))).
Proof.
  intros Hfirst Hsecond Hsource Hmode Hvalue.
  unfold stackOperation, bind, operandInt. rewrite Hsecond, Hmode. cbn [number ret Z.eqb].
  rewrite Hfirst, Hsource. cbn [number ret].
  unfold readRegister, bind, gets. rewrite Hvalue. reflexivity.
Qed.

(** A pop from a stack that is not empty moves its top into the
    destination register. *)
Lemma stackOperation_pop (operands : list Operand) (s : ARPUEmulatorState)
    (first second : Operand) (destinationRegisterIndex mode top : Z) (below : list Z) :
  operands !! 0%nat = Some first ->
  operands !! 1%nat = Some second ->
  toInt first = Some destinationRegisterIndex ->
  toInt second = Some mode ->
  mode <> 0 ->
  stack s = below ++ [top] ->
  0 <= destinationRegisterIndex < Z.of_nat (List.length (registers s)) ->
  stackOperation operands s
  = (Normal tt,
     set_cycle (cycle s + 1)
       (set_lineIndex (lineIndex s + 1)
          (set_PC (PC s + 1)
             (set_registers (<[Z.to_nat destinationRegisterIndex := top]> (registers s))
                (set_stack below s))))).
Proof.
  intros Hfirst Hsecond Hdestination Hmode Hpop Hstack Hrange.
  unfold stackOperation, bind, operandInt. rewrite Hsecond, Hmode. cbn [number ret].
  destruct (Z.eqb_spec mode 0) as [Hzero | _]; [contradiction |].
  rewrite Hfirst, Hdestination. cbn [number ret].
  unfold gets, modify. rewrite Hstack, pop_snoc. cbn [fst snd].
  unfold writeRegister, bind, gets, modify. cbn [registers set_stack].
  rewrite (assign_index_inside _ _ top Hrange). reflexivity.
Qed.

(** ** Calls that throw (C6) *)

Lemma handler_throw_leaves_state (mnemonic : string) (handler : list Operand -> M unit)
    (operands : list Operand) (s s' : ARPUEmulatorState) (e : exn) :
  lookup_handler handlers mnemonic = Some handler ->
  handler operands s = (Throw e, s') ->
  s' = s.
Proof.
  intros Hhandler H.
  destruct (handlers_cases _ _ Hhandler)
    as [[_ ->] | [[_ ->] | [[_ ->] | [[_ ->] | [[_ ->] | [_ ->]]]]]].
  - unfold increment in H. run_cases H; injection H as _ <-; reflexivity.
  - unfold loadImmediate in H. run_cases H; injection H as _ <-; reflexivity.
  - unfold portLoad, modify in H. discriminate H.
  - unfold portStore in H. run_cases H; injection H as _ <-; reflexivity.
  - unfold branch, shouldJump in H. run_cases H; injection H as _ <-; reflexivity.
  - unfold stackOperation in H. run_cases H; injection H as _ <-; reflexivity.
Qed.

(** X20.  Whatever a call throws, it throws before it has assigned anything:
    a [step()] or a [portInput] that throws leaves the state it found. *)
Lemma throwing_call_leaves_state (s s' : ARPUEmulatorState) (e : exn) :
  (step s = (Throw e, s') \/ exists value : Z, portInput value s = (Throw e, s')) ->
  s' = s.
Proof.
  intros [Hstep | [value Hinput]].
  - unfold step, bind, gets in Hstep.
    destruct (isWaitingPortInput s); [injection Hstep as _ <-; reflexivity |].
    destruct (currentLine s) as [line |]; [| injection Hstep as _ <-; reflexivity].
    destruct (lookup_handler handlers (AsmLine.mnemonic line)) as [handler |] eqn:Hhandler;
      [| injection Hstep as _ <-; reflexivity].
    exact (handler_throw_leaves_state _ _ _ _ _ _ Hhandler Hstep).
  - unfold portInput in Hinput. run_cases Hinput; injection Hinput as _ <-; reflexivity.
Qed.

(** * Further properties of the instruction records *)

(** ** The opcode the constructor looks up *)

Lemma findIndex_bounds {A : Type} (p : A -> bool) (a : list A) :
  -1 <= findIndex p a < Z.of_nat (List.length a).
Proof.
  induction a as [| head rest IH]; cbn [findIndex List.length]; [lia |].
  destruct (p head); [lia |].
  destruct (Z.ltb_spec (findIndex p rest) 0); lia.
Qed.

Lemma findIndex_found {A : Type} (p : A -> bool) (a : list A) :
  0 <= findIndex p a ->
  exists x : A, a !! Z.to_nat (findIndex p a) = Some x /\ p x = true.
Proof.
  induction a as [| head rest IH]; cbn [findIndex]; [lia |].
  destruct (p head) eqn:Hhead.
  - intros _. exists head. split; [reflexivity | exact Hhead].
  - destruct (Z.ltb_spec (findIndex p rest) 0) as [Hneg | Hpos]; [lia |].
    intros _. destruct (IH Hpos) as [x [Hx Hp]]. exists x. split; [| exact Hp].
    replace (Z.to_nat (findIndex p rest + 1)) with (S (Z.to_nat (findIndex p rest))) by lia.
    exact Hx.
Qed.

Lemma findIndex_absent {A : Type} (p : A -> bool) (a : list A) :
  findIndex p a < 0 -> forall x : A, In x a -> p x = false.
Proof.
  induction a as [| head rest IH]; cbn [findIndex]; [intros _ x [] |].
  destruct (p head) eqn:Hhead; [lia |].
  destruct (Z.ltb_spec (findIndex p rest) 0) as [Hneg | Hpos]; [| lia].
  intros _ x [<- | Hin]; [exact Hhead | exact (IH Hneg x Hin)].
Qed.

(** X1.  The opcode of a record is the place of its mnemonic in the table of
    the 16 instructions, so that the table gives the mnemonic back; it is
    -1 exactly for a mnemonic that is not in the table, as [DW]. *)
Theorem opcode_names_mnemonic (mnemonic : string) (operands : list Operand)
    (aliasMnemonic : option string) (aliasOperands : option (list Operand)) :
  let line := AsmLine.new mnemonic operands aliasMnemonic aliasOperands in
  (0 <= AsmLine.opcode line < 16
   /\ INSTRUCTION_MNEMONICS !! Z.to_nat (AsmLine.opcode line) = Some mnemonic)
  \/ (AsmLine.opcode line = -1 /\ ~ In mnemonic INSTRUCTION_MNEMONICS).
Proof.
  intros line. cbn [line AsmLine.new AsmLine.opcode].
  pose proof (findIndex_bounds (fun candidate => String.eqb mnemonic candidate)
                INSTRUCTION_MNEMONICS) as Hbounds.
  change (Z.of_nat (List.length INSTRUCTION_MNEMONICS)) with 16 in Hbounds.
  destruct (Z.ltb_spec (findIndex (fun candidate => String.eqb mnemonic candidate)
                          INSTRUCTION_MNEMONICS) 0) as [Hneg | Hpos].
  - right. split; [lia |].
    intros Hin. pose proof (findIndex_absent _ _ Hneg _ Hin) as Hnot.
    cbn beta in Hnot. rewrite String.eqb_refl in Hnot. discriminate.
  - left. split; [lia |].
    destruct (findIndex_found _ _ Hpos) as [found [Hlookup Hsame]].
    cbn beta in Hsame. apply String.eqb_eq in Hsame as <-. exact Hlookup.
Qed.

Lemma built_new (mnemonic : string) (operands : list Operand)
    (aliasMnemonic : option string) (aliasOperands : option (list Operand)) :
  AsmLine.built (AsmLine.new mnemonic operands aliasMnemonic aliasOperands).
Proof.
  repeat split.
Qed.

Lemma built_setLabel (l : string) (line : AsmLine.t) :
  AsmLine.built line -> AsmLine.built (AsmLine.setLabel l line).
Proof.
  intros H. exact H.
Qed.

Lemma built_setOffsetInBytes (offset : Z) (line : AsmLine.t) :
  AsmLine.built line -> AsmLine.built (AsmLine.setOffsetInBytes offset line).
Proof.
  intros H. exact H.
Qed.

(** What [built] says of the opcode, in the terms of the table. *)
Lemma built_opcode (line : AsmLine.t) :
  AsmLine.built line ->
  (0 <= AsmLine.opcode line < 16
   /\ INSTRUCTION_MNEMONICS !! Z.to_nat (AsmLine.opcode line) = Some (AsmLine.mnemonic line))
  \/ (AsmLine.opcode line = -1 /\ ~ In (AsmLine.mnemonic line) INSTRUCTION_MNEMONICS).
Proof.
  intros [_ [_ Hopcode]]. rewrite Hopcode.
  pose proof (findIndex_bounds (String.eqb (AsmLine.mnemonic line)) INSTRUCTION_MNEMONICS)
    as Hbounds.
  change (Z.of_nat (List.length INSTRUCTION_MNEMONICS)) with 16 in Hbounds.
  destruct (Z.ltb_spec (findIndex (String.eqb (AsmLine.mnemonic line))
                          INSTRUCTION_MNEMONICS) 0) as [Hneg | Hpos].
  - right. split; [lia |].
    intros Hin. pose proof (findIndex_absent _ _ Hneg _ Hin) as Hnot.
    rewrite String.eqb_refl in Hnot. discriminate.
  - left. split; [lia |].
    destruct (findIndex_found _ _ Hpos) as [found [Hlookup Hsame]].
    apply String.eqb_eq in Hsame as <-. exact Hlookup.
Qed.

(** ** When [getBytes()] fails, and how many bytes it returns *)

Lemma unresolved_among (operands : list Operand) :
  existsb (fun integer : option Z => match integer with None => true | Some _ => false end)
          (map toInt operands) = true
  <-> exists operand : Operand, In operand operands /\ toInt operand = None.
Proof.
  induction operands as [| head rest IH]; cbn [map existsb].
  - split; [discriminate | intros [operand [[] _]]].
  - rewrite orb_true_iff, IH. split.
    + intros [Hhead | [operand [Hin Hnone]]].
      * exists head. split; [left; reflexivity |]. destruct (toInt head); [discriminate | reflexivity].
      * exists operand. split; [right; exact Hin | exact Hnone].
    + intros [operand [[<- | Hin] Hnone]].
      * left. rewrite Hnone. reflexivity.
      * right. exists operand. split; assumption.
Qed.

(** X2.  [getBytes()] throws its error exactly when some operand is a label
    reference that has not been resolved; otherwise it returns bytes. *)
Theorem getBytes_fails_iff_unresolved (line : AsmLine.t) :
  (AsmLine.getBytes line
   = inl (Error "Some operands that are labels were not filled with immediate values")
   <-> exists operand : Operand, In operand (AsmLine.operands line) /\ toInt operand = None)
  /\ ((exists result : list Z, AsmLine.getBytes line = inr result)
      <-> forall operand : Operand, In operand (AsmLine.operands line) -> toInt operand <> None).
Proof.
  unfold AsmLine.getBytes.
  destruct (existsb _ (map toInt (AsmLine.operands line))) eqn:Hsome.
  - apply unresolved_among in Hsome. split.
    + split; [intros _; exact Hsome | reflexivity].
    + split.
      * intros [result Hresult]. discriminate Hresult.
      * intros Hall. destruct Hsome as [operand [Hin Hnone]].
        exfalso. exact (Hall operand Hin Hnone).
  - assert (Hnone : ~ exists operand : Operand,
                        In operand (AsmLine.operands line) /\ toInt operand = None).
    { intros Hex. apply unresolved_among in Hex. congruence. }
    split.
    + split; [discriminate | intros Hex; contradiction].
    + split.
      * intros _ operand Hin Hu. apply Hnone. exists operand. split; assumption.
      * intros _. eexists. reflexivity.
Qed.

Lemma returned_bytes_resolved (line : AsmLine.t) (result : list Z) :
  AsmLine.getBytes line = inr result ->
  forall operand : Operand, In operand (AsmLine.operands line) -> toInt operand <> None.
Proof.
  unfold AsmLine.getBytes.
  destruct (existsb _ (map toInt (AsmLine.operands line))) eqn:Hsome; [discriminate |].
  intros _ operand Hin Hnone.
  assert (Hex : exists o : Operand, In o (AsmLine.operands line) /\ toInt o = None)
    by (exists operand; split; assumption).
  apply unresolved_among in Hex. congruence.
Qed.

Lemma resolved_ints (operands : list Operand) :
  (forall operand : Operand, In operand operands -> toInt operand <> None) ->
  exists ints : list Z, map toInt operands = map Some ints.
Proof.
  induction operands as [| head rest IH]; intros Hall.
  - exists []. reflexivity.
  - destruct IH as [ints Hints]; [intros operand Hin; apply Hall; right; exact Hin |].
    destruct (toInt head) as [value |] eqn:Hhead.
    + exists (value :: ints). cbn [map]. rewrite Hhead, Hints. reflexivity.
    + exfalso. apply (Hall head); [left; reflexivity | exact Hhead].
Qed.

(** The bytes of a record whose operands are the integers [ints]. *)
Lemma getBytes_resolved (line : AsmLine.t) (ints : list Z) :
  map toInt (AsmLine.operands line) = map Some ints ->
  AsmLine.getBytes line
  = inr (shiftLeft (Some (default 0 (ints !! 1%nat))) 6 + shiftLeft (ints !! 0%nat) 4
         + AsmLine.opcode line
         :: match ints !! 2%nat with Some third => [third] | None => [] end).
Proof.
  intros Hresolved. unfold AsmLine.getBytes. rewrite Hresolved.
  rewrite no_undefined_among_resolved, !lookup_resolved.
  destruct (ints !! 2%nat); reflexivity.
Qed.

(** X3.  The constructor gives a record of three operands the size 2 and every
    other record the size 1; [getBytes()] returns a second byte as soon as
    there is a third operand.  So the number of bytes is the size of the
    record exactly when the record has at most three operands. *)
Theorem getBytes_length_is_size (line : AsmLine.t) (result : list Z) :
  AsmLine.built line ->
  AsmLine.getBytes line = inr result ->
  (Z.of_nat (List.length result) = AsmLine.sizeInBytes line
   <-> (List.length (AsmLine.operands line) <= 3)%nat).
Proof.
  intros [_ [Hsize _]] Hbytes.
  destruct (resolved_ints _ (returned_bytes_resolved _ _ Hbytes)) as [ints Hints].
  rewrite (getBytes_resolved line ints Hints) in Hbytes. injection Hbytes as <-.
  assert (Hlen : List.length (AsmLine.operands line) = List.length ints).
  { rewrite <- (length_map toInt), Hints. apply length_map. }
  rewrite Hsize, Hlen.
  destruct ints as [| i0 [| i1 [| i2 [| i3 more]]]]; cbn; split; intros; lia.
Qed.

Lemma getBytes_length_is_size_witness :
  Z.of_nat (List.length [78; 4])
  = AsmLine.sizeInBytes (statement "BRA" [Literal 0; Literal 1; LabelReference ".branch" (Some 4)])
  <-> (3 <= 3)%nat.
Proof.
  apply (getBytes_length_is_size
           (statement "BRA" [Literal 0; Literal 1; LabelReference ".branch" (Some 4)]) [78; 4]).
  - apply built_new.
  - reflexivity.
Defined.

(** ** The first byte tells the instruction *)

(** The first byte, for operands of two bits. *)
Lemma first_byte_value (operand1 opcode : Z) (operand0 : option Z) :
  0 <= operand1 < 4 -> 0 <= default 0 operand0 < 4 ->
  shiftLeft (Some operand1) 6 + shiftLeft operand0 4 + opcode
  = operand1 * 64 + default 0 operand0 * 16 + opcode.
Proof.
  intros H1 H0.
  rewrite (shiftLeft_small operand1 6) by (try reflexivity; lia).
  destruct operand0 as [first |]; cbn [from_option id] in *.
  - rewrite (shiftLeft_small first 4) by (try reflexivity; lia). reflexivity.
  - rewrite shiftLeft_undefined. lia.
Qed.

(** X4.  Two records of instructions with operands of two bits that have the
    same bytes have the same mnemonic, the same first and second operand
    (an absent one counting as 0) and the same third operand: the encoding
    loses nothing but the difference between an absent operand and 0. *)
Theorem getBytes_injective (line1 line2 : AsmLine.t) (ints1 ints2 : list Z) :
  AsmLine.built line1 -> AsmLine.built line2 ->
  In (AsmLine.mnemonic line1) INSTRUCTION_MNEMONICS ->
  In (AsmLine.mnemonic line2) INSTRUCTION_MNEMONICS ->
  map toInt (AsmLine.operands line1) = map Some ints1 ->
  map toInt (AsmLine.operands line2) = map Some ints2 ->
  0 <= default 0 (ints1 !! 0%nat) < 4 -> 0 <= default 0 (ints1 !! 1%nat) < 4 ->
  0 <= default 0 (ints2 !! 0%nat) < 4 -> 0 <= default 0 (ints2 !! 1%nat) < 4 ->
  AsmLine.getBytes line1 = AsmLine.getBytes line2 ->
  AsmLine.mnemonic line1 = AsmLine.mnemonic line2
  /\ default 0 (ints1 !! 0%nat) = default 0 (ints2 !! 0%nat)
  /\ default 0 (ints1 !! 1%nat) = default 0 (ints2 !! 1%nat)
  /\ ints1 !! 2%nat = ints2 !! 2%nat.
Proof.
  intros Hbuilt1 Hbuilt2 Hin1 Hin2 Hints1 Hints2 H10 H11 H20 H21 Hsame.
  rewrite (getBytes_resolved _ _ Hints1), (getBytes_resolved _ _ Hints2) in Hsame.
  rewrite !first_byte_value in Hsame by assumption.
  destruct (built_opcode _ Hbuilt1) as [[Hop1 Hname1] | [_ Hout]]; [| contradiction].
  destruct (built_opcode _ Hbuilt2) as [[Hop2 Hname2] | [_ Hout]]; [| contradiction].
  injection Hsame as Hbyte Hthird.
  destruct (packed_fields _ _ _ H11 H10 Hop1) as [_ [Hf11 [Hf10 Hf1op]]].
  destruct (packed_fields _ _ _ H21 H20 Hop2) as [_ [Hf21 [Hf20 Hf2op]]].
  cbv zeta in Hf11, Hf10, Hf1op, Hf21, Hf20, Hf2op.
  rewrite Hbyte in Hf11, Hf10, Hf1op.
  assert (Hopcode : AsmLine.opcode line1 = AsmLine.opcode line2) by congruence.
  split; [| split; [| split]].
  - rewrite Hopcode in Hname1. congruence.
  - congruence.
  - congruence.
  - destruct (ints1 !! 2%nat), (ints2 !! 2%nat); congruence.
Qed.

Lemma getBytes_injective_witness :
  AsmLine.mnemonic (statement "RET" [])
  = AsmLine.mnemonic (AsmLine.setLabel ".end" (statement "RET" [Literal 0]))
  /\ default 0 (@nil Z !! 0%nat) = default 0 ([0] !! 0%nat)
  /\ default 0 (@nil Z !! 1%nat) = default 0 ([0] !! 1%nat)
  /\ @nil Z !! 2%nat = [0] !! 2%nat.
Proof.
  apply (getBytes_injective
           (statement "RET" []) (AsmLine.setLabel ".end" (statement "RET" [Literal 0]))
           [] [0]).
  - apply built_new.
  - apply built_setLabel, built_new.
  - cbn. tauto.
  - cbn. tauto.
  - reflexivity.
  - reflexivity.
  - cbn. lia.
  - cbn. lia.
  - cbn. lia.
  - cbn. lia.
  - reflexivity.
Defined.

(** ** Data directives *)

Lemma built_data (line : AsmLine.t) :
  AsmLine.built line ->
  AsmLine.mnemonic line = "DW" ->
  AsmLine.isData line = true /\ AsmLine.opcode line = -1.
Proof.
  intros [Hdata [_ Hopcode]] Hdw. rewrite Hdata, Hopcode, Hdw. split; reflexivity.
Qed.

(** X5.  [getBytes()] treats a data directive as it treats an instruction: the
    literal of [DW value] is shifted into the place of the first operand
    and the opcode -1 of a mnemonic outside the table is added, so the
    byte is [16 * value - 1] and never the literal itself. *)
Theorem getBytes_of_data (line : AsmLine.t) (literal : Operand) (value : Z) :
  AsmLine.built line ->
  AsmLine.mnemonic line = "DW" ->
  AsmLine.operands line = [literal] ->
  toInt literal = Some value ->
  0 <= value < 2 ^ 27 ->
  AsmLine.getBytes line = inr [16 * value - 1] /\ 16 * value - 1 <> value.
Proof.
  intros Hbuilt Hdw Hoperands Hvalue Hrange.
  destruct (built_data _ Hbuilt Hdw) as [_ Hopcode].
  split; [| lia].
  rewrite (getBytes_resolved line [value]) by (rewrite Hoperands; cbn; rewrite Hvalue; reflexivity).
  cbn [lookup list_lookup from_option id]. rewrite Hopcode.
  rewrite (shiftLeft_small 0 6) by (try reflexivity; lia).
  rewrite (shiftLeft_small value 4) by (try reflexivity; lia).
  f_equal. f_equal. lia.
Qed.

Lemma getBytes_of_data_witness :
  AsmLine.getBytes (AsmLine.setOffsetInBytes 7 (statement "DW" [Literal 200])) = inr [3199]
  /\ 16 * 200 - 1 <> 200.
Proof.
  apply (getBytes_of_data
           (AsmLine.setOffsetInBytes 7 (statement "DW" [Literal 200])) (Literal 200) 200).
  - apply built_setOffsetInBytes, built_new.
  - reflexivity.
  - reflexivity.
  - reflexivity.
  - lia.
Defined.

(** X6.  [getDataValue()] returns the first operand of a data directive as it
    is, and throws its error on every record that is not one; it throws a
    [TypeError] on a data directive without operand. *)
Theorem getDataValue_only_of_data (line : AsmLine.t) :
  AsmLine.built line ->
  (AsmLine.mnemonic line <> "DW" ->
   AsmLine.getDataValue line
   = inl (Error "Trying to access data value of non-data AsmLine"))
  /\ (AsmLine.mnemonic line = "DW" ->
      AsmLine.getDataValue line
      = match AsmLine.operands line !! 0%nat with
        | Some operand => inr (toInt operand)
        | None => inl TypeError
        end).
Proof.
  intros [Hdata _]. unfold AsmLine.getDataValue. rewrite Hdata.
  unfold AsmLine.isDataMnemonic, DATA_MNEMONIC.
  destruct (String.eqb_spec (AsmLine.mnemonic line) "DW") as [Hdw | Hother].
  - split; [contradiction | reflexivity].
  - split; [reflexivity | contradiction].
Qed.

Lemma getDataValue_only_of_data_witness :
  AsmLine.getDataValue (statement "INC" [Register 0; Register 1])
  = inl (Error "Trying to access data value of non-data AsmLine")
  /\ AsmLine.getDataValue (statement "DW" [Literal 200]) = inr (Some 200)
  /\ AsmLine.getDataValue (statement "DW" []) = inl TypeError.
Proof.
  split; [| split].
  - apply (proj1 (getDataValue_only_of_data (statement "INC" [Register 0; Register 1])
                    (built_new _ _ _ _))).
    discriminate.
  - apply (proj2 (getDataValue_only_of_data (statement "DW" [Literal 200])
                    (built_new _ _ _ _))).
    reflexivity.
  - apply (proj2 (getDataValue_only_of_data (statement "DW" []) (built_new _ _ _ _))).
    reflexivity.
Defined.

(** ** Copies *)

Lemma length_three_map (cloneOperand : Operand -> Operand) (operands : list Operand) :
  (List.length (map cloneOperand operands) =? 3)%nat = (List.length operands =? 3)%nat.
Proof.
  rewrite length_map. reflexivity.
Qed.

(** X7.  [clone()] makes a record with the same mnemonic, label, offset, size,
    opcode and number of operands, whatever the copy of an operand is; the
    copy is built by the constructor again.  When the copy of an operand
    has the value of the operand, the clone has the bytes of the
    original. *)
Theorem clone_keeps_record (cloneOperand : Operand -> Operand) (line : AsmLine.t) :
  AsmLine.built line ->
  let copy := AsmLine.clone cloneOperand line in
  AsmLine.built copy
  /\ AsmLine.mnemonic copy = AsmLine.mnemonic line
  /\ AsmLine.aliasMnemonic copy = AsmLine.aliasMnemonic line
  /\ AsmLine.label copy = AsmLine.label line
  /\ AsmLine.offsetInBytes copy = AsmLine.offsetInBytes line
  /\ AsmLine.isData copy = AsmLine.isData line
  /\ AsmLine.sizeInBytes copy = AsmLine.sizeInBytes line
  /\ AsmLine.opcode copy = AsmLine.opcode line
  /\ AsmLine.operands copy = map cloneOperand (AsmLine.operands line)
  /\ ((forall operand : Operand, toInt (cloneOperand operand) = toInt operand) ->
      AsmLine.getBytes copy = AsmLine.getBytes line).
Proof.
  intros [Hdata [Hsize Hopcode]] copy. subst copy. unfold AsmLine.clone.
  destruct (AsmLine.label line) as [l |] eqn:Hlabel;
    destruct (AsmLine.offsetInBytes line) as [offset |] eqn:Hoffset;
    cbn [AsmLine.setLabel AsmLine.setOffsetInBytes AsmLine.new AsmLine.built
         AsmLine.isData AsmLine.mnemonic AsmLine.operands AsmLine.sizeInBytes
         AsmLine.opcode AsmLine.aliasMnemonic AsmLine.label AsmLine.offsetInBytes];
    rewrite ?length_three_map, ?Hdata, ?Hsize, ?Hopcode;
    (repeat split;
     intros Hvalue; unfold AsmLine.getBytes;
     cbn [AsmLine.operands AsmLine.opcode AsmLine.setLabel AsmLine.setOffsetInBytes
          AsmLine.new];
     rewrite List.map_map, (List.map_ext _ _ Hvalue), Hopcode; reflexivity).
Qed.

Lemma clone_keeps_record_witness :
  AsmLine.getBytes
    (AsmLine.clone (fun operand => operand)
       (AsmLine.setOffsetInBytes 4
          (AsmLine.setLabel ".branch" (statement "IMM" [Register 0; Literal 0; Literal 2]))))
  = inr [10; 2]
  /\ AsmLine.label
       (AsmLine.clone (fun operand => operand)
          (AsmLine.setOffsetInBytes 4
             (AsmLine.setLabel ".branch" (statement "IMM" [Register 0; Literal 0; Literal 2]))))
     = Some ".branch".
Proof.
  destruct (clone_keeps_record (fun operand => operand)
              (AsmLine.setOffsetInBytes 4
                 (AsmLine.setLabel ".branch" (statement "IMM" [Register 0; Literal 0; Literal 2])))
              (built_setOffsetInBytes _ _ (built_setLabel _ _ (built_new _ _ _ _))))
    as [_ [_ [_ [Hlabel [_ [_ [_ [_ [_ Hbytes]]]]]]]]].
  split.
  - rewrite Hbytes; [reflexivity | reflexivity].
  - exact Hlabel.
Defined.

(** * Further properties of the emulator *)

(** ** What no call assigns to *)

Lemma handler_untouched (mnemonic : string) (handler : list Operand -> M unit)
    (operands : list Operand) (s s' : ARPUEmulatorState) (c : completion unit) :
  lookup_handler handlers mnemonic = Some handler ->
  handler operands s = (c, s') ->
  untouched s s'.
Proof.
  intros Hhandler H.
  destruct (handlers_cases _ _ Hhandler)
    as [[_ ->] | [[_ ->] | [[_ ->] | [[_ ->] | [[_ ->] | [_ ->]]]]]].
  - unfold increment in H. run_cases H; injection H as _ <-; split; reflexivity.
  - unfold loadImmediate in H. run_cases H; injection H as _ <-; split; reflexivity.
  - unfold portLoad, modify in H. injection H as _ <-. split; reflexivity.
  - unfold portStore in H. run_cases H; injection H as _ <-; split; reflexivity.
  - unfold branch, shouldJump in H. run_cases H; injection H as _ <-; split; reflexivity.
  - unfold stackOperation in H. run_cases H; injection H as _ <-; split; reflexivity.
Qed.

(** X8.  However a [step()] or a [portInput] ends, it leaves the program, the
    four flags, the program memory and the RAM as they were: this
    emulator has no instruction that assigns to a flag or to the RAM. *)
Theorem calls_leave_flags_and_memory (s s' : ARPUEmulatorState) (c : completion unit) :
  (step s = (c, s') \/ exists value : Z, portInput value s = (c, s')) ->
  untouched s s'.
Proof.
  intros [Hstep | [value Hinput]].
  - unfold step, bind, gets in Hstep.
    destruct (isWaitingPortInput s); [injection Hstep as _ <-; split; reflexivity |].
    destruct (currentLine s) as [line |]; [| injection Hstep as _ <-; split; reflexivity].
    destruct (lookup_handler handlers (AsmLine.mnemonic line)) as [handler |] eqn:Hhandler;
      [| injection Hstep as _ <-; split; reflexivity].
    exact (handler_untouched _ _ _ _ _ _ Hhandler Hstep).
  - unfold portInput in Hinput.
    run_cases Hinput; injection Hinput as _ <-; split; reflexivity.
Qed.

Lemma calls_leave_flags_and_memory_witness :
  let s := set_ZF true (emulatorOn programBRA) in
  untouched s (set_cycle 1 (set_lineIndex 2 (set_PC 4 s))).
Proof.
  intros s.
  apply (calls_leave_flags_and_memory s (set_cycle 1 (set_lineIndex 2 (set_PC 4 s)))
           (Normal tt)).
  left. reflexivity.
Defined.

(** ** Records the emulator cannot execute *)

Lemma lookup_handler_none (table : list (string * (list Operand -> M unit)))
    (mnemonic : string) :
  ~ In mnemonic (map fst table) -> lookup_handler table mnemonic = None.
Proof.
  induction table as [| [key handler] rest IH]; intros Hnot; [reflexivity |].
  cbn [lookup_handler]. destruct (String.eqb_spec key mnemonic) as [-> | _].
  - exfalso. apply Hnot. left. reflexivity.
  - apply IH. intros Hin. apply Hnot. right. exact Hin.
Qed.

(** X9.  [step()] throws a [TypeError] and leaves the state as it is when
    lineIndex names no record, and when the mnemonic of the current record
    is one of the mnemonics of the assembler but not a key of the table of
    handlers: that is every one of [ALL_MNEMONICS] but INC, IMM, PLD, PST,
    BRA and SOP. *)
Theorem step_without_handler (s : ARPUEmulatorState) :
  isWaitingPortInput s = false ->
  (currentLine s = None
   \/ exists line : AsmLine.t,
        currentLine s = Some line
        /\ In (AsmLine.mnemonic line) ALL_MNEMONICS
        /\ ~ In (AsmLine.mnemonic line) handledMnemonics) ->
  step s = (Throw TypeError, s).
Proof.
  intros Hidle [Hnone | [line [Hline [_ Hunknown]]]];
    unfold step, bind, gets; rewrite Hidle.
  - rewrite Hnone. reflexivity.
  - rewrite Hline. rewrite (lookup_handler_none handlers _ Hunknown). reflexivity.
Qed.

Lemma step_without_handler_witness :
  step (emulatorOn programADD) = (Throw TypeError, emulatorOn programADD)
  /\ step (set_lineIndex 1 (emulatorOn programADD))
     = (Throw TypeError, set_lineIndex 1 (emulatorOn programADD)).
Proof.
  split.
  - apply (step_without_handler (emulatorOn programADD)); [reflexivity |].
    right. exists (AsmLine.setOffsetInBytes 0 (statement "ADD" [Register 0; Register 1])).
    split; [reflexivity |]. split; [cbn; tauto |].
    cbn. intros [H | [H | [H | [H | [H | [H | []]]]]]]; discriminate H.
  - apply (step_without_handler (set_lineIndex 1 (emulatorOn programADD))); [reflexivity |].
    left. reflexivity.
Defined.

(** The mnemonics of the assembler that have no handler. *)
Lemma mnemonics_without_handler (mnemonic : string) :
  In mnemonic ALL_MNEMONICS ->
  ~ In mnemonic handledMnemonics ->
  In mnemonic ["DW"; "ADD"; "SUB"; "RSH"; "DEC"; "BIT"; "CAL"; "RET"; "STR"; "LOD"; "MOV"].
Proof.
  cbn. intros Hall Hnot.
  repeat (destruct Hall as [<- | Hall]; [tauto |]). contradiction.
Qed.

(** ** The pending port read *)

(** X10.  A completed [step()] leaves a port read pending exactly when the
    record it executed is a PLD; a completed [portInput] leaves none. *)
Theorem pending_only_after_PLD (s s' : ARPUEmulatorState) :
  (step s = (Normal tt, s') ->
   exists line : AsmLine.t,
     currentLine s = Some line
     /\ isWaitingPortInput s' = String.eqb (AsmLine.mnemonic line) "PLD")
  /\ (forall value : Z,
        portInput value s = (Normal tt, s') -> isWaitingPortInput s' = false).
Proof.
  split.
  - intros Hstep.
    destruct (step_completed _ _ Hstep) as [Hidle [line [handler [Hline [Hhandler Hrun]]]]].
    exists line. split; [exact Hline |].
    destruct (handlers_cases _ _ Hhandler)
      as [[-> ->] | [[-> ->] | [[-> ->] | [[-> ->] | [[-> ->] | [-> ->]]]]]].
    + unfold increment in Hrun. run_handler Hrun; exact Hidle.
    + unfold loadImmediate in Hrun. run_handler Hrun; exact Hidle.
    + apply portLoad_waits in Hrun as ->. reflexivity.
    + unfold portStore in Hrun. run_handler Hrun; exact Hidle.
    + unfold branch, shouldJump in Hrun. run_handler Hrun; exact Hidle.
    + unfold stackOperation in Hrun. run_handler Hrun; exact Hidle.
  - intros value Hinput. unfold portInput in Hinput. run_handler Hinput. reflexivity.
Qed.

Lemma pending_only_after_PLD_witness :
  let s := emulatorOn programPLD in
  exists line : AsmLine.t,
    currentLine s = Some line
    /\ isWaitingPortInput (set_isWaitingPortInput true s)
       = String.eqb (AsmLine.mnemonic line) "PLD".
Proof.
  intros s.
  apply (proj1 (pending_only_after_PLD s (set_isWaitingPortInput true s))).
  reflexivity.
Defined.

(** ** INC, IMM and PST *)

(** X11.  INC on a register that holds a byte: the register of the first
    operand becomes its value plus 1 modulo 256, PC, lineIndex and cycle
    advance by 1, and nothing else changes; a second operand is not
    read. *)
Theorem step_INC (s : ARPUEmulatorState) (line : AsmLine.t)
    (first : Operand) (index old : Z) :
  isWaitingPortInput s = false ->
  currentLine s = Some line ->
  AsmLine.mnemonic line = "INC" ->
  AsmLine.operands line !! 0%nat = Some first ->
  toInt first = Some index ->
  at_index (registers s) index = Some old ->
  0 <= old < WORD_SIZE ->
  step s
  = (Normal tt,
     {| asmLines := asmLines s;
        lineIndex := lineIndex s + 1;
        registers := <[Z.to_nat index := (old + 1) mod 256]> (registers s);
        PC := PC s + 1;
        ZF := ZF s;
        COUTF := COUTF s;
        MSBF := MSBF s;
        LSBF := LSBF s;
        PMEM := PMEM s;
        RAM := RAM s;
        stack := stack s;
        inputPorts := inputPorts s;
        outputPorts := outputPorts s;
        isWaitingPortInput := isWaitingPortInput s;
        cycle := cycle s + 1 |}).
Proof.
  intros Hidle Hline Hmnemonic Hfirst Hindex Hold Hbyte.
  rewrite (step_dispatch s line increment Hidle Hline) by (rewrite Hmnemonic; reflexivity).
  rewrite (increment_in_place _ s first index old Hfirst Hindex Hold).
  unfold WORD_SIZE in *.
  replace (if old + 1 >=? 256 then 0 else old + 1) with ((old + 1) mod 256); [reflexivity |].
  destruct (Z.geb_spec (old + 1) 256) as [Hwrap | Hstay].
  - replace (old + 1) with 256 by lia. reflexivity.
  - apply Z.mod_small. lia.
Qed.

Lemma step_INC_witness :
  step (set_registers [255; 42; 0; 0] (emulatorOn programINC))
  = (Normal tt,
     {| asmLines := programINC;
        lineIndex := 1;
        registers := [0; 42; 0; 0];
        PC := 1;
        ZF := false;
        COUTF := false;
        MSBF := false;
        LSBF := false;
        PMEM := [67];
        RAM := repeat 0 256;
        stack := [];
        inputPorts := [0; 0; 0; 0];
        outputPorts := [0; 0; 0; 0];
        isWaitingPortInput := false;
        cycle := 1 |}).
Proof.
  apply (step_INC (set_registers [255; 42; 0; 0] (emulatorOn programINC))
           (AsmLine.setOffsetInBytes 0 (statement "INC" [Register 0; Register 1]))
           (Register 0) 0 255);
    first [reflexivity | unfold WORD_SIZE; lia].
Defined.

(** X12.  IMM stores its third operand, whatever it is, in the register of its
    first operand; PC advances by 2, lineIndex and cycle by 1; the second
    operand is not read and nothing else changes. *)
Theorem step_IMM (s : ARPUEmulatorState) (line : AsmLine.t)
    (first third : Operand) (destinationRegisterIndex immediate : Z) :
  isWaitingPortInput s = false ->
  currentLine s = Some line ->
  AsmLine.mnemonic line = "IMM" ->
  AsmLine.operands line !! 0%nat = Some first ->
  AsmLine.operands line !! 2%nat = Some third ->
  toInt first = Some destinationRegisterIndex ->
  toInt third = Some immediate ->
  0 <= destinationRegisterIndex < Z.of_nat (List.length (registers s)) ->
  step s
  = (Normal tt,
     {| asmLines := asmLines s;
        lineIndex := lineIndex s + 1;
        registers := <[Z.to_nat destinationRegisterIndex := immediate]> (registers s);
        PC := PC s + 2;
        ZF := ZF s;
        COUTF := COUTF s;
        MSBF := MSBF s;
        LSBF := LSBF s;
        PMEM := PMEM s;
        RAM := RAM s;
        stack := stack s;
        inputPorts := inputPorts s;
        outputPorts := outputPorts s;
        isWaitingPortInput := isWaitingPortInput s;
        cycle := cycle s + 1 |}).
Proof.
  intros Hidle Hline Hmnemonic Hfirst Hthird Hdestination Himmediate Hrange.
  rewrite (step_dispatch s line loadImmediate Hidle Hline) by (rewrite Hmnemonic; reflexivity).
  unfold loadImmediate, bind, operandInt.
  rewrite Hfirst, Hthird, Hdestination, Himmediate. cbn [number ret].
  unfold writeRegister, bind, gets, modify.
  rewrite (assign_index_inside _ _ immediate Hrange). reflexivity.
Qed.

Lemma step_IMM_witness :
  step (emulatorOn programIMMwide)
  = (Normal tt,
     {| asmLines := programIMMwide;
        lineIndex := 1;
        registers := [0; 300; 0; 0];
        PC := 2;
        ZF := false;
        COUTF := false;
        MSBF := false;
        LSBF := false;
        PMEM := [26; 300];
        RAM := repeat 0 256;
        stack := [];
        inputPorts := [0; 0; 0; 0];
        outputPorts := [0; 0; 0; 0];
        isWaitingPortInput := false;
        cycle := 1 |}).
Proof.
  apply (step_IMM (emulatorOn programIMMwide)
           (AsmLine.setOffsetInBytes 0 (statement "IMM" [Register 1; Literal 0; Literal 300]))
           (Register 1) (Literal 300) 1 300);
    first [reflexivity | cbn; lia].
Defined.

(** X13.  PST copies the register of its first operand to the output port of
    its second operand; the register file is not changed; PC, lineIndex
    and cycle advance by 1. *)
Theorem step_PST (s : ARPUEmulatorState) (line : AsmLine.t)
    (first second : Operand) (sourceRegisterIndex portIndex value : Z) :
  isWaitingPortInput s = false ->
  currentLine s = Some line ->
  AsmLine.mnemonic line = "PST" ->
  AsmLine.operands line !! 0%nat = Some first ->
  AsmLine.operands line !! 1%nat = Some second ->
  toInt first = Some sourceRegisterIndex ->
  toInt second = Some portIndex ->
  at_index (registers s) sourceRegisterIndex = Some value ->
  0 <= portIndex < Z.of_nat (List.length (outputPorts s)) ->
  step s
  = (Normal tt,
     {| asmLines := asmLines s;
        lineIndex := lineIndex s + 1;
        registers := registers s;
        PC := PC s + 1;
        ZF := ZF s;
        COUTF := COUTF s;
        MSBF := MSBF s;
        LSBF := LSBF s;
        PMEM := PMEM s;
        RAM := RAM s;
        stack := stack s;
        inputPorts := inputPorts s;
        outputPorts := <[Z.to_nat portIndex := value]> (outputPorts s);
        isWaitingPortInput := isWaitingPortInput s;
        cycle := cycle s + 1 |}).
Proof.
  intros Hidle Hline Hmnemonic Hfirst Hsecond Hsource Hport Hvalue Hrange.
  rewrite (step_dispatch s line portStore Hidle Hline) by (rewrite Hmnemonic; reflexivity).
  unfold portStore, bind, operandInt.
  rewrite Hfirst, Hsecond, Hsource, Hport. cbn [number ret].
  unfold readRegister, bind, gets. rewrite Hvalue. cbn [number ret].
  rewrite (assign_index_inside _ _ value Hrange). reflexivity.
Qed.

Lemma step_PST_witness :
  step (set_registers [3; 0; 0; 0] (emulatorOn programPST))
  = (Normal tt,
     {| asmLines := programPST;
        lineIndex := 1;
        registers := [3; 0; 0; 0];
        PC := 1;
        ZF := false;
        COUTF := false;
        MSBF := false;
        LSBF := false;
        PMEM := [136];
        RAM := repeat 0 256;
        stack := [];
        inputPorts := [0; 0; 0; 0];
        outputPorts := [0; 0; 3; 0];
        isWaitingPortInput := false;
        cycle := 1 |}).
Proof.
  apply (step_PST (set_registers [3; 0; 0; 0] (emulatorOn programPST))
           (AsmLine.setOffsetInBytes 0 (statement "PST" [Register 0; Literal 2]))
           (Register 0) (Literal 2) 0 2 3);
    first [reflexivity | cbn; lia].
Defined.

(** ** Push and pop *)

(** X14.  A push followed by a pop moves the value of the source register of
    the push to the destination register of the pop and leaves the stack
    as it was before the two; PC, lineIndex and cycle have advanced by 2. *)
Theorem push_then_pop (pushOperands popOperands : list Operand) (s : ARPUEmulatorState)
    (source zero destination pop_mode : Operand)
    (sourceRegisterIndex destinationRegisterIndex mode value : Z) :
  pushOperands !! 0%nat = Some source ->
  pushOperands !! 1%nat = Some zero ->
  toInt source = Some sourceRegisterIndex ->
  toInt zero = Some 0 ->
  at_index (registers s) sourceRegisterIndex = Some value ->
  popOperands !! 0%nat = Some destination ->
  popOperands !! 1%nat = Some pop_mode ->
  toInt destination = Some destinationRegisterIndex ->
  toInt pop_mode = Some mode ->
  mode <> 0 ->
  0 <= destinationRegisterIndex < Z.of_nat (List.length (registers s)) ->
  (stackOperation pushOperands ;;; stackOperation popOperands) s
  = (Normal tt,
     {| asmLines := asmLines s;
        lineIndex := lineIndex s + 2;
        registers := <[Z.to_nat destinationRegisterIndex := value]> (registers s);
        PC := PC s + 2;
        ZF := ZF s;
        COUTF := COUTF s;
        MSBF := MSBF s;
        LSBF := LSBF s;
        PMEM := PMEM s;
        RAM := RAM s;
        stack := stack s;
        inputPorts := inputPorts s;
        outputPorts := outputPorts s;
        isWaitingPortInput := isWaitingPortInput s;
        cycle := cycle s + 2 |}).
Proof.
  intros Hsource Hzero Hsrc Hpush Hvalue Hdestination Hmode Hdst Hpop Hnonzero Hrange.
  unfold bind at 1.
  rewrite (stackOperation_push _ s source zero sourceRegisterIndex value
             Hsource Hzero Hsrc Hpush Hvalue).
  rewrite (stackOperation_pop popOperands
             (set_cycle (cycle s + 1)
                (set_lineIndex (lineIndex s + 1)
                   (set_PC (PC s + 1) (set_stack (stack s ++ [value]) s))))
             destination pop_mode destinationRegisterIndex mode value (stack s)
             Hdestination Hmode Hdst Hpop Hnonzero eq_refl Hrange).
  destruct s.
  cbv [set_cycle set_lineIndex set_PC set_registers set_stack
       asmLines lineIndex registers PC ZF COUTF MSBF LSBF PMEM RAM stack inputPorts
       outputPorts isWaitingPortInput cycle].
  f_equal. f_equal; lia.
Qed.

Lemma push_then_pop_witness :
  (stackOperation [Register 0; Literal 0] ;;; stackOperation [Register 3; Literal 2])
    (set_stack [9] (set_registers [42; 0; 0; 7] (emulatorOn programSOP)))
  = (Normal tt,
     {| asmLines := programSOP;
        lineIndex := 2;
        registers := [42; 0; 0; 42];
        PC := 2;
        ZF := false;
        COUTF := false;
        MSBF := false;
        LSBF := false;
        PMEM := [141];
        RAM := repeat 0 256;
        stack := [9];
        inputPorts := [0; 0; 0; 0];
        outputPorts := [0; 0; 0; 0];
        isWaitingPortInput := false;
        cycle := 2 |}).
Proof.
  apply (push_then_pop [Register 0; Literal 0] [Register 3; Literal 2]
           (set_stack [9] (set_registers [42; 0; 0; 7] (emulatorOn programSOP)))
           (Register 0) (Literal 0) (Register 3) (Literal 2) 0 3 2 42);
    first [reflexivity | discriminate | cbn; lia].
Defined.

(** ** Branches at the edges *)

(** X15.  A conditional branch whose first operand selects none of the four
    flags jumps, whatever the flags and the negate bit are: the flag it
    reads is [undefined], which differs from both booleans. *)
Theorem shouldJump_without_flag (operands : list Operand) (s : ARPUEmulatorState)
    (first second : Operand) (condition flags : Z) :
  operands !! 0%nat = Some first ->
  operands !! 1%nat = Some second ->
  toInt first = Some condition ->
  toInt second = Some flags ->
  condition < 0 \/ 3 < condition ->
  shouldJump operands s = (Normal true, s).
Proof.
  intros Hfirst Hsecond Hcondition Hflags Hout.
  unfold shouldJump, bind, operandInt. rewrite Hfirst, Hsecond, Hcondition, Hflags.
  cbn [number ret].
  destruct (negb (isBitSet flags 0)); [reflexivity |].
  unfold gets, ret, at_index.
  destruct (Z.ltb_spec condition 0) as [Hneg | Hpos]; [reflexivity |].
  rewrite (lookup_ge_None_2 (getFlags s) (Z.to_nat condition)) by (cbn; lia).
  reflexivity.
Qed.

Lemma shouldJump_without_flag_witness :
  shouldJump [Literal 4; Literal 3; Literal 0] (emulatorOn programBRA)
  = (Normal true, emulatorOn programBRA).
Proof.
  apply (shouldJump_without_flag [Literal 4; Literal 3; Literal 0] (emulatorOn programBRA)
           (Literal 4) (Literal 3) 4 3);
    first [reflexivity | lia].
Defined.

Lemma findIndex_none {A : Type} (p : A -> bool) (a : list A) :
  (forall x : A, In x a -> p x = false) -> findIndex p a = -1.
Proof.
  induction a as [| head rest IH]; intros Hall; [reflexivity |].
  cbn [findIndex]. rewrite (Hall head) by (left; reflexivity).
  rewrite IH by (intros x Hin; apply Hall; right; exact Hin). reflexivity.
Qed.

(** X16.  A jump to an offset at which no record stands completes: PC becomes
    the offset and lineIndex the -1 of [findIndex].  The emulator is then
    stuck: the next [step()] throws a [TypeError] and changes nothing. *)
Theorem branch_to_missing_target (s : ARPUEmulatorState) (line : AsmLine.t)
    (third : Operand) (target : Z) :
  isWaitingPortInput s = false ->
  currentLine s = Some line ->
  AsmLine.mnemonic line = "BRA" ->
  AsmLine.operands line !! 2%nat = Some third ->
  toInt third = Some target ->
  shouldJump (AsmLine.operands line) s = (Normal true, s) ->
  (forall record : AsmLine.t,
      In record (asmLines s) -> AsmLine.offsetInBytes record <> Some target) ->
  let lost :=
    {| asmLines := asmLines s;
       lineIndex := -1;
       registers := registers s;
       PC := target;
       ZF := ZF s;
       COUTF := COUTF s;
       MSBF := MSBF s;
       LSBF := LSBF s;
       PMEM := PMEM s;
       RAM := RAM s;
       stack := stack s;
       inputPorts := inputPorts s;
       outputPorts := outputPorts s;
       isWaitingPortInput := isWaitingPortInput s;
       cycle := cycle s + 1 |} in
  step s = (Normal tt, lost) /\ step lost = (Throw TypeError, lost).
Proof.
  intros Hidle Hline Hmnemonic Hthird Htarget Hjump Hmissing lost.
  split.
  - rewrite (step_dispatch s line branch Hidle Hline) by (rewrite Hmnemonic; reflexivity).
    unfold branch, bind. unfold operandInt at 1. rewrite Hthird, Htarget. cbn [number ret].
    rewrite Hjump. cbn [gets modify].
    rewrite (findIndex_none (hasOffset target) (asmLines s)); [reflexivity |].
    intros record Hin. apply hasOffset_false. exact (Hmissing record Hin).
  - unfold step, bind, gets.
    change (isWaitingPortInput lost) with (isWaitingPortInput s). rewrite Hidle.
    reflexivity.
Qed.

Lemma branch_to_missing_target_witness :
  let lost :=
    {| asmLines := programBRAlost;
       lineIndex := -1;
       registers := [0; 0; 0; 0];
       PC := 5;
       ZF := false;
       COUTF := false;
       MSBF := false;
       LSBF := false;
       PMEM := [14; 5; 10; 1];
       RAM := repeat 0 256;
       stack := [];
       inputPorts := [0; 0; 0; 0];
       outputPorts := [0; 0; 0; 0];
       isWaitingPortInput := false;
       cycle := 1 |} in
  step (emulatorOn programBRAlost) = (Normal tt, lost)
  /\ step lost = (Throw TypeError, lost).
Proof.
  apply (branch_to_missing_target (emulatorOn programBRAlost)
           (AsmLine.setOffsetInBytes 0 (statement "BRA" [Literal 0; Literal 0; Literal 5]))
           (Literal 5) 5);
    try reflexivity.
  intros record [<- | [<- | []]]; discriminate.
Defined.

(** ** Bytes stay bytes *)

Lemma bytes_at (values : list Z) (i value : Z) :
  bytes values -> at_index values i = Some value -> 0 <= value < WORD_SIZE.
Proof.
  intros Hbytes Hat. apply at_index_Some in Hat as [_ Hlookup].
  exact (Forall_lookup_1 _ _ _ _ Hbytes Hlookup).
Qed.

Lemma bytes_insert (values : list Z) (i : nat) (value : Z) :
  bytes values -> 0 <= value < WORD_SIZE -> bytes (<[i := value]> values).
Proof.
  intros Hbytes Hvalue. apply Forall_insert; assumption.
Qed.

Lemma bytes_snoc (values : list Z) (value : Z) :
  bytes values -> 0 <= value < WORD_SIZE -> bytes (values ++ [value]).
Proof.
  intros Hbytes Hvalue. apply Forall_app. split; [exact Hbytes |].
  constructor; [exact Hvalue | constructor].
Qed.

Lemma assign_index_cases (a : list Z) (i v : Z) (result : list Z) :
  assign_index a i v = Some result ->
  (0 <= i < Z.of_nat (List.length a) /\ result = <[Z.to_nat i := v]> a)
  \/ (i = Z.of_nat (List.length a) /\ result = a ++ [v]).
Proof.
  unfold assign_index.
  destruct (Z.ltb_spec i 0) as [Hneg | Hpos]; [discriminate |].
  destruct (Z.ltb_spec i (Z.of_nat (List.length a))) as [Hin | Hout].
  - intros [= <-]. left. split; [lia | reflexivity].
  - destruct (Z.eqb_spec i (Z.of_nat (List.length a))) as [Heq | Hne]; [| discriminate].
    intros [= <-]. right. split; [exact Heq | reflexivity].
Qed.

Lemma bytes_assign (a : list Z) (i v : Z) (result : list Z) :
  assign_index a i v = Some result -> bytes a -> 0 <= v < WORD_SIZE -> bytes result.
Proof.
  intros Hassign Hbytes Hv.
  destruct (assign_index_cases _ _ _ _ Hassign) as [[_ ->] | [_ ->]].
  - apply bytes_insert; assumption.
  - apply bytes_snoc; assumption.
Qed.

(** The slot just assigned holds the value assigned. *)
Lemma at_assigned (a : list Z) (i v : Z) (result : list Z) :
  assign_index a i v = Some result -> at_index result i = Some v.
Proof.
  intros Hassign.
  destruct (assign_index_cases _ _ _ _ Hassign) as [[Hrange ->] | [Hend ->]].
  - rewrite at_index_nat by lia. apply list_lookup_insert_eq. lia.
  - rewrite at_index_nat by lia. rewrite Hend, Nat2Z.id.
    rewrite lookup_app_r by lia. rewrite Nat.sub_diag. reflexivity.
Qed.

(** Assigning a slot twice is assigning it the second value. *)
Lemma assign_twice (a : list Z) (i v w : Z) (first second : list Z) :
  assign_index a i v = Some first ->
  assign_index first i w = Some second ->
  assign_index a i w = Some second.
Proof.
  intros Hfirst Hsecond.
  destruct (assign_index_cases _ _ _ _ Hfirst) as [[Hrange ->] | [Hend ->]].
  - rewrite assign_index_inside in Hsecond by (rewrite length_insert; exact Hrange).
    rewrite list_insert_insert_eq in Hsecond.
    rewrite assign_index_inside by exact Hrange. exact Hsecond.
  - rewrite assign_index_inside in Hsecond by (rewrite length_app; cbn; lia).
    injection Hsecond as <-.
    unfold assign_index.
    destruct (Z.ltb_spec i 0) as [Hneg | _]; [lia |].
    destruct (Z.ltb_spec i (Z.of_nat (List.length a))) as [Hin | _]; [lia |].
    destruct (Z.eqb_spec i (Z.of_nat (List.length a))) as [_ | Hne]; [| lia].
    f_equal. rewrite Hend, Nat2Z.id.
    rewrite <- (Nat.add_0_r (List.length a)) at 1.
    rewrite insert_app_r. reflexivity.
Qed.

Lemma bytes_pop (values : list Z) :
  bytes values ->
  bytes (snd (pop values))
  /\ 0 <= match fst (pop values) with None => 0 | Some top => top end < WORD_SIZE.
Proof.
  intros Hbytes. destruct values as [| head rest] eqn:Hvalues.
  - split; [constructor | unfold WORD_SIZE; cbn; lia].
  - rewrite <- Hvalues in *.
    destruct (exists_last (l := values)) as [below [top Hsplit]]; [congruence |].
    rewrite Hsplit in *. rewrite pop_snoc. cbn [fst snd].
    apply Forall_app in Hbytes as [Hbelow Htop].
    split; [exact Hbelow |]. inversion Htop. assumption.
Qed.


Ltac show_fields :=
  unfold byteState;
  cbn [registers stack inputPorts outputPorts set_registers set_stack set_inputPorts
       set_outputPorts set_PC set_lineIndex set_cycle set_isWaitingPortInput].

Lemma zero_is_byte : 0 <= 0 < WORD_SIZE.
Proof.
  unfold WORD_SIZE. lia.
Qed.

Lemma increment_keeps_bytes (operands : list Operand) (s s' : ARPUEmulatorState) :
  byteState s -> increment operands s = (Normal tt, s') -> byteState s'.
Proof.
  intros [Hregisters [Hstack [Hin Hout]]] H. unfold increment in H.
  run_handler H; show_fields; (split; [| repeat split; assumption]);
    cbn [registers set_registers] in *.
  - apply (bytes_assign (registers s) z 0); [| exact Hregisters | exact zero_is_byte].
    eapply assign_twice; eassumption.
  - apply (bytes_assign (registers s) z (z0 + 1) l); [assumption | exact Hregisters |].
    pose proof (bytes_at _ _ _ Hregisters E1) as Hold.
    pose proof (at_assigned _ _ _ _ E2) as Hnew.
    assert (z1 = z0 + 1) by congruence. subst z1.
    destruct (Z.geb_spec (z0 + 1) WORD_SIZE) as [| Hsmall]; [discriminate | lia].
Qed.

Lemma loadImmediate_keeps_bytes (operands : list Operand) (s s' : ARPUEmulatorState) :
  byteState s ->
  (forall (third : Operand) (immediate : Z),
      operands !! 2%nat = Some third -> toInt third = Some immediate ->
      0 <= immediate < WORD_SIZE) ->
  loadImmediate operands s = (Normal tt, s') -> byteState s'.
Proof.
  intros [Hregisters [Hstack [Hin Hout]]] Himmediate H. unfold loadImmediate in H.
  run_handler H; show_fields; (split; [| repeat split; assumption]).
  eapply bytes_assign; [eassumption | exact Hregisters |].
  eapply Himmediate; [reflexivity | eassumption].
Qed.

Lemma portStore_keeps_bytes (operands : list Operand) (s s' : ARPUEmulatorState) :
  byteState s -> portStore operands s = (Normal tt, s') -> byteState s'.
Proof.
  intros [Hregisters [Hstack [Hin Hout]]] H. unfold portStore in H.
  run_handler H; show_fields; repeat split; try assumption.
  eapply bytes_assign; [eassumption | exact Hout |].
  eapply bytes_at; [exact Hregisters | eassumption].
Qed.

Lemma branch_keeps_bytes (operands : list Operand) (s s' : ARPUEmulatorState) :
  byteState s -> branch operands s = (Normal tt, s') -> byteState s'.
Proof.
  intros Hbytes H. unfold branch, shouldJump in H.
  run_handler H; exact Hbytes.
Qed.

Lemma stackOperation_keeps_bytes (operands : list Operand) (s s' : ARPUEmulatorState) :
  byteState s -> stackOperation operands s = (Normal tt, s') -> byteState s'.
Proof.
  intros [Hregisters [Hstack [Hin Hout]]] H. unfold stackOperation in H.
  run_handler H; show_fields; cbn [registers set_stack] in *.
  - repeat split; try assumption.
    apply bytes_snoc; [exact Hstack |].
    eapply bytes_at; [exact Hregisters | eassumption].
  - destruct (bytes_pop _ Hstack) as [Hbelow Htop].
    match goal with E : fst (pop (stack s)) = _ |- _ => rewrite E in Htop end.
    repeat split; try assumption.
    eapply bytes_assign; [eassumption | exact Hregisters | exact Htop].
  - destruct (bytes_pop _ Hstack) as [Hbelow Htop].
    match goal with E : fst (pop (stack s)) = _ |- _ => rewrite E in Htop end.
    repeat split; try assumption.
    eapply bytes_assign; [eassumption | exact Hregisters | exact Htop].
Qed.

Lemma at_index_in_range {A : Type} (a : list A) (i : Z) :
  0 <= i < Z.of_nat (List.length a) -> at_index a i <> None.
Proof.
  intros Hrange Hnone. rewrite at_index_nat in Hnone by lia.
  apply lookup_ge_None_1 in Hnone. lia.
Qed.

Lemma assign_in_range (a : list Z) (i v : Z) :
  0 <= i < Z.of_nat (List.length a) -> assign_index a i v <> None.
Proof.
  intros Hrange. rewrite (assign_index_inside _ _ v Hrange). discriminate.
Qed.

Lemma assign_again (a : list Z) (i v w : Z) (result : list Z) :
  assign_index a i v = Some result -> assign_index result i w <> None.
Proof.
  intros Hassign.
  destruct (assign_index_cases _ _ _ _ Hassign) as [[Hrange ->] | [Hend ->]];
    apply assign_in_range.
  - rewrite length_insert. exact Hrange.
  - rewrite length_app. cbn [List.length]. lia.
Qed.

(** The ways a handler could leave the typed fragment, refuted from the
    operands being resolved ([Hresolved]) and in range. *)
Ltac use_ranges :=
  repeat match goal with
         | H : forall (first : Operand) (index : Z), Some ?o = Some first -> _,
           E : toInt ?o = Some ?z |- _ =>
             pose proof (H o z eq_refl E); clear H
         | H : forall (first : Operand) (index : Z), ?ops !! ?i = Some first -> _,
           L : ?ops !! ?i = Some ?o, E : toInt ?o = Some ?z |- _ =>
             pose proof (H o z L E); clear H
         end.

Ltac refute_untyped Hresolved :=
  exfalso; use_ranges;
  cbn [registers inputPorts outputPorts stack set_registers set_stack set_inputPorts
       set_outputPorts] in *;
  first
    [ match goal with
      | E : toInt ?o = None, L : ?ops !! _ = Some ?o |- _ =>
          apply (Hresolved o);
          [apply list_elem_of_In; exact (list_elem_of_lookup_2 _ _ _ L) | exact E]
      end
    | match goal with
      | E : at_index ?a ?i = None, R : 0 <= ?i < Z.of_nat (List.length ?a) |- _ =>
          exact (at_index_in_range a i R E)
      end
    | match goal with
      | E : assign_index ?a ?i ?v = None, R : 0 <= ?i < Z.of_nat (List.length ?a) |- _ =>
          exact (assign_in_range a i v R E)
      end
    | match goal with
      | E : assign_index ?a ?i ?v = Some ?l, E' : at_index ?l ?i = None |- _ =>
          rewrite (at_assigned _ _ _ _ E) in E'; discriminate E'
      end
    | match goal with
      | E : assign_index ?a ?i ?v = Some ?l, E' : assign_index ?l ?i ?w = None |- _ =>
          exact (assign_again _ _ _ w _ E E')
      end ].

Lemma increment_typed (operands : list Operand) (s s' : ARPUEmulatorState)
    (c : completion unit) :
  (forall operand : Operand, In operand operands -> toInt operand <> None) ->
  (forall (first : Operand) (index : Z),
      operands !! 0%nat = Some first -> toInt first = Some index ->
      0 <= index < Z.of_nat (List.length (registers s))) ->
  increment operands s = (c, s') -> c <> Untyped.
Proof.
  intros Hresolved Hregister H. unfold increment in H.
  run_cases H; injection H as <- _; try discriminate; refute_untyped Hresolved.
Qed.

Lemma loadImmediate_typed (operands : list Operand) (s s' : ARPUEmulatorState)
    (c : completion unit) :
  (forall operand : Operand, In operand operands -> toInt operand <> None) ->
  (forall (first : Operand) (index : Z),
      operands !! 0%nat = Some first -> toInt first = Some index ->
      0 <= index < Z.of_nat (List.length (registers s))) ->
  loadImmediate operands s = (c, s') -> c <> Untyped.
Proof.
  intros Hresolved Hregister H. unfold loadImmediate in H.
  run_cases H; injection H as <- _; try discriminate; refute_untyped Hresolved.
Qed.

Lemma portStore_typed (operands : list Operand) (s s' : ARPUEmulatorState)
    (c : completion unit) :
  (forall operand : Operand, In operand operands -> toInt operand <> None) ->
  (forall (first : Operand) (index : Z),
      operands !! 0%nat = Some first -> toInt first = Some index ->
      0 <= index < Z.of_nat (List.length (registers s))) ->
  (forall (second : Operand) (port : Z),
      operands !! 1%nat = Some second -> toInt second = Some port ->
      0 <= port < Z.of_nat (List.length (outputPorts s))) ->
  portStore operands s = (c, s') -> c <> Untyped.
Proof.
  intros Hresolved Hregister Hport H. unfold portStore in H.
  run_cases H; injection H as <- _; try discriminate; refute_untyped Hresolved.
Qed.

Lemma branch_typed (operands : list Operand) (s s' : ARPUEmulatorState)
    (c : completion unit) :
  (forall operand : Operand, In operand operands -> toInt operand <> None) ->
  branch operands s = (c, s') -> c <> Untyped.
Proof.
  intros Hresolved H. unfold branch, shouldJump in H.
  run_cases H; injection H as <- _; try discriminate; refute_untyped Hresolved.
Qed.

Lemma stackOperation_typed (operands : list Operand) (s s' : ARPUEmulatorState)
    (c : completion unit) :
  (forall operand : Operand, In operand operands -> toInt operand <> None) ->
  (forall (first : Operand) (index : Z),
      operands !! 0%nat = Some first -> toInt first = Some index ->
      0 <= index < Z.of_nat (List.length (registers s))) ->
  stackOperation operands s = (c, s') -> c <> Untyped.
Proof.
  intros Hresolved Hregister H. unfold stackOperation in H.
  run_cases H; injection H as <- _; try discriminate; refute_untyped Hresolved.
Qed.

Lemma portInput_typed (value : Z) (s s' : ARPUEmulatorState) (line : AsmLine.t)
    (c : completion unit) :
  currentLine s = Some line ->
  operandsInRange s line ->
  portInput value s = (c, s') -> c <> Untyped.
Proof.
  intros Hline [Hresolved [Hregister [_ Hport]]] H. unfold portInput in H.
  run_cases H; injection H as <- _; try discriminate.
  all: match goal with
       | L : Some ?found = Some ?given |- _ =>
           let Hsame := fresh "Hsame" in injection L as Hsame; subst
       end.
  all: match goal with
       | E : negb (String.eqb (AsmLine.mnemonic ?current) "PLD") = false |- _ =>
           apply negb_false_iff, String.eqb_eq in E;
           assert (Hnot : AsmLine.mnemonic current <> "BRA") by (rewrite E; discriminate);
           specialize (Hregister Hnot); specialize (Hport E)
       end.
  all: refute_untyped Hresolved.
Qed.

(** X17.  Take a state in which registers, stack and ports hold bytes, a
    program whose IMM records have bytes as immediates, and a current
    record of the assembler whose operands have values and name registers
    and ports that are there.  Then neither [step()] nor [portInput] of a
    byte leaves the numbers (no slot becomes [undefined] or [NaN], no
    array gets a hole), and when the call completes, registers, stack and
    ports hold bytes again. *)
Theorem bytes_stay_bytes (s : ARPUEmulatorState) (line : AsmLine.t) :
  byteState s ->
  byteImmediates (asmLines s) ->
  currentLine s = Some line ->
  In (AsmLine.mnemonic line) ALL_MNEMONICS ->
  operandsInRange s line ->
  (forall (c : completion unit) (s' : ARPUEmulatorState),
      step s = (c, s') -> c <> Untyped /\ (c = Normal tt -> byteState s'))
  /\ (forall (value : Z) (c : completion unit) (s' : ARPUEmulatorState),
        0 <= value < WORD_SIZE ->
        portInput value s = (c, s') -> c <> Untyped /\ (c = Normal tt -> byteState s')).
Proof.
  intros Hbytes Himmediates Hline _ Hrange. split.
  - intros c s' Hstep. split.
    + destruct Hrange as [Hresolved [Hregister [Hout _]]].
      unfold step, bind, gets in Hstep.
      destruct (isWaitingPortInput s); [injection Hstep as <- _; discriminate |].
      rewrite Hline in Hstep.
      destruct (lookup_handler handlers (AsmLine.mnemonic line)) as [handler |] eqn:Hhandler;
        [| injection Hstep as <- _; discriminate].
      destruct (handlers_cases _ _ Hhandler)
        as [[Hm ->] | [[Hm ->] | [[Hm ->] | [[Hm ->] | [[Hm ->] | [Hm ->]]]]]].
      * apply (increment_typed _ _ _ _ Hresolved) in Hstep; [exact Hstep |].
        apply Hregister. rewrite Hm. discriminate.
      * apply (loadImmediate_typed _ _ _ _ Hresolved) in Hstep; [exact Hstep |].
        apply Hregister. rewrite Hm. discriminate.
      * unfold portLoad, modify in Hstep. injection Hstep as <- _. discriminate.
      * apply (portStore_typed _ _ _ _ Hresolved) in Hstep; [exact Hstep | | exact (Hout Hm)].
        apply Hregister. rewrite Hm. discriminate.
      * exact (branch_typed _ _ _ _ Hresolved Hstep).
      * apply (stackOperation_typed _ _ _ _ Hresolved) in Hstep; [exact Hstep |].
        apply Hregister. rewrite Hm. discriminate.
    + intros ->.
      destruct (step_completed _ _ Hstep) as [_ [line' [handler [Hline' [Hhandler Hrun]]]]].
      rewrite Hline in Hline'. injection Hline' as <-.
      destruct (handlers_cases _ _ Hhandler)
        as [[Hm ->] | [[Hm ->] | [[Hm ->] | [[Hm ->] | [[Hm ->] | [Hm ->]]]]]].
      * exact (increment_keeps_bytes _ _ _ Hbytes Hrun).
      * apply (loadImmediate_keeps_bytes (AsmLine.operands line) s s' Hbytes); [| exact Hrun].
        intros third immediate Hthird Himmediate.
        exact (Himmediates line third immediate
                 (current_line_in_program _ _ Hline) Hm Hthird Himmediate).
      * apply portLoad_waits in Hrun as ->. exact Hbytes.
      * exact (portStore_keeps_bytes _ _ _ Hbytes Hrun).
      * exact (branch_keeps_bytes _ _ _ Hbytes Hrun).
      * exact (stackOperation_keeps_bytes _ _ _ Hbytes Hrun).
  - intros value c s' Hvalue Hinput. split.
    + exact (portInput_typed _ _ _ _ _ Hline Hrange Hinput).
    + intros ->. destruct Hbytes as [Hregisters [Hstack [Hin Hout]]].
      unfold portInput in Hinput. run_handler Hinput. show_fields.
      cbn [inputPorts set_registers] in *.
      repeat split; try assumption; eapply bytes_assign; eassumption.
Qed.

Lemma bytes_stay_bytes_witness :
  let s := set_registers [255; 42; 0; 0] (emulatorOn programINC) in
  let s' :=
    {| asmLines := programINC;
       lineIndex := 1;
       registers := [0; 42; 0; 0];
       PC := 1;
       ZF := false;
       COUTF := false;
       MSBF := false;
       LSBF := false;
       PMEM := [67];
       RAM := repeat 0 256;
       stack := [];
       inputPorts := [0; 0; 0; 0];
       outputPorts := [0; 0; 0; 0];
       isWaitingPortInput := false;
       cycle := 1 |} in
  step s = (Normal tt, s')
  /\ Normal tt <> @Untyped unit
  /\ bytes (registers s') /\ bytes (stack s')
  /\ bytes (inputPorts s') /\ bytes (outputPorts s').
Proof.
  intros s s'. split; [reflexivity |].
  assert (Hholds : Normal tt <> @Untyped unit /\ (Normal tt = Normal tt -> byteState s')).
  { apply (proj1 (bytes_stay_bytes s
                    (AsmLine.setOffsetInBytes 0 (statement "INC" [Register 0; Register 1]))
                    ltac:(unfold byteState, bytes, WORD_SIZE;
                          repeat split; repeat (constructor; [lia |]); constructor)
                    ltac:(intros line third immediate [<- | []] Hm; discriminate Hm)
                    eq_refl
                    ltac:(cbn; tauto)
                    ltac:(split; [| split; [| split]];
                          [ intros operand [<- | [<- | []]]; discriminate
                          | intros _ op idx Hop Hidx; cbn in Hop; injection Hop as <-;
                            cbn in Hidx; injection Hidx as <-; cbn; lia
                          | intros Hm; discriminate Hm
                          | intros Hm; discriminate Hm ]))).
    reflexivity. }
  destruct Hholds as [Htyped Hbytes]. split; [exact Htyped |]. exact (Hbytes eq_refl).
Defined.

(** ** How far a step moves *)

(** X18.  A completed [step()] on a record of the assembler (its mnemonic is
    one of [ALL_MNEMONICS]) other than a PLD either is a jump of
    a BRA, or moves lineIndex by 1 and PC by 2 when the mnemonic is one of
    [EXTRA_BYTE_INSTRUCTIONS] and by 1 when it is not: the handlers add
    the size that goes with the mnemonic, not the size stored in the
    record. *)
Theorem step_moves_by_mnemonic (s s' : ARPUEmulatorState) (line : AsmLine.t) :
  step s = (Normal tt, s') ->
  currentLine s = Some line ->
  In (AsmLine.mnemonic line) ALL_MNEMONICS ->
  AsmLine.mnemonic line <> "PLD" ->
  (lineIndex s' = lineIndex s + 1
   /\ PC s' = PC s + (if existsb (String.eqb (AsmLine.mnemonic line)) EXTRA_BYTE_INSTRUCTIONS
                      then 2 else 1))
  \/ (AsmLine.mnemonic line = "BRA"
      /\ exists (third : Operand) (target : Z),
           AsmLine.operands line !! 2%nat = Some third
           /\ toInt third = Some target
           /\ PC s' = target
           /\ lineIndex s' = findIndex (hasOffset target) (asmLines s)).
Proof.
  intros Hstep Hline _ Hother.
  destruct (step_completed _ _ Hstep) as [_ [line' [handler [Hline' [Hhandler Hrun]]]]].
  rewrite Hline in Hline'. injection Hline' as <-.
  destruct (handlers_cases _ _ Hhandler)
    as [[Hm ->] | [[Hm ->] | [[Hm ->] | [[Hm ->] | [[Hm ->] | [Hm ->]]]]]];
    rewrite Hm.
  - apply increment_moves in Hrun as [_ HPC Hidx _]. left. split; assumption.
  - apply loadImmediate_moves in Hrun as [_ HPC Hidx _]. left. split; assumption.
  - contradiction.
  - apply portStore_moves in Hrun as [_ HPC Hidx _]. left. split; assumption.
  - apply branch_moves in Hrun
      as [[_ HPC Hidx _] | [third [target [Hthird [Htarget [_ HPC Hidx _]]]]]].
    + left. split; assumption.
    + right. split; [reflexivity |]. exists third, target. auto.
  - apply stackOperation_moves in Hrun as [_ HPC Hidx _]. left. split; assumption.
Qed.

Lemma step_moves_by_mnemonic_witness :
  let s := emulatorOn programIMMwide in
  let s' :=
       {| asmLines := programIMMwide;
          lineIndex := 1;
          registers := [0; 300; 0; 0];
          PC := 2;
          ZF := false;
          COUTF := false;
          MSBF := false;
          LSBF := false;
          PMEM := [26; 300];
          RAM := repeat 0 256;
          stack := [];
          inputPorts := [0; 0; 0; 0];
          outputPorts := [0; 0; 0; 0];
          isWaitingPortInput := false;
          cycle := 1 |} in
  step s = (Normal tt, s')
  /\ ((lineIndex s' = 0 + 1 /\ PC s' = 0 + 2)
      \/ ("IMM" = "BRA"
          /\ exists (third : Operand) (target : Z),
               [Register 1; Literal 0; Literal 300] !! 2%nat = Some third
               /\ toInt third = Some target
               /\ PC s' = target
               /\ lineIndex s' = findIndex (hasOffset target) programIMMwide)).
Proof.
  intros s s'. split; [reflexivity |].
  apply (step_moves_by_mnemonic s s' (AsmLine.setOffsetInBytes 0 (statement "IMM" [Register 1; Literal 0; Literal 300]))).
  - reflexivity.
  - reflexivity.
  - cbn. tauto.
  - discriminate.
Defined.

(** ** What the cycle counter counts *)

(** X19.  cycle counts executed instructions, not bytes: a completed [step()]
    on a record of the assembler (its mnemonic is one of [ALL_MNEMONICS])
    adds 1 for every record but a PLD, for which it adds nothing, and the
    completed [portInput] that ends the read adds the 1 of the PLD. *)
Theorem cycle_counts_instructions (s s' : ARPUEmulatorState) :
  (forall line : AsmLine.t,
      currentLine s = Some line ->
      In (AsmLine.mnemonic line) ALL_MNEMONICS ->
      step s = (Normal tt, s') ->
      cycle s' = cycle s + (if String.eqb (AsmLine.mnemonic line) "PLD" then 0 else 1))
  /\ (forall value : Z, portInput value s = (Normal tt, s') -> cycle s' = cycle s + 1).
Proof.
  split.
  - intros line Hline _ Hstep.
    destruct (step_completed _ _ Hstep) as [_ [line' [handler [Hline' [Hhandler Hrun]]]]].
    rewrite Hline in Hline'. injection Hline' as <-.
    destruct (handlers_cases _ _ Hhandler)
      as [[Hm ->] | [[Hm ->] | [[Hm ->] | [[Hm ->] | [[Hm ->] | [Hm ->]]]]]];
      rewrite Hm; cbn [String.eqb Ascii.eqb Bool.eqb].
    + apply increment_moves in Hrun. apply Hrun.
    + apply loadImmediate_moves in Hrun. apply Hrun.
    + apply portLoad_waits in Hrun as ->. cbn [cycle set_isWaitingPortInput]. lia.
    + apply portStore_moves in Hrun. apply Hrun.
    + apply branch_moves in Hrun as [Hmoved | [third [target [_ [_ Hjumped]]]]].
      * apply Hmoved.
      * apply Hjumped.
    + apply stackOperation_moves in Hrun. apply Hrun.
  - intros value Hinput. apply portInput_moves in Hinput as [Hmoved _]. apply Hmoved.
Qed.

Lemma cycle_counts_instructions_witness :
  let s := emulatorOn programIMMwide in
  let s' :=
       {| asmLines := programIMMwide;
          lineIndex := 1;
          registers := [0; 300; 0; 0];
          PC := 2;
          ZF := false;
          COUTF := false;
          MSBF := false;
          LSBF := false;
          PMEM := [26; 300];
          RAM := repeat 0 256;
          stack := [];
          inputPorts := [0; 0; 0; 0];
          outputPorts := [0; 0; 0; 0];
          isWaitingPortInput := false;
          cycle := 1 |} in
  step s = (Normal tt, s') /\ cycle s' = 0 + 1.
Proof.
  intros s s'. split; [reflexivity |].
  apply (proj1 (cycle_counts_instructions s s') (AsmLine.setOffsetInBytes 0 (statement "IMM" [Register 1; Literal 0; Literal 300]))).
  - reflexivity.
  - cbn. tauto.
  - reflexivity.
Defined.

(** ** A call that throws *)

Lemma throwing_call_leaves_state_witness :
  step (emulatorOn programADD) = (Throw TypeError, emulatorOn programADD)
  /\ emulatorOn programADD = emulatorOn programADD.
Proof.
  split; [reflexivity |].
  apply (throwing_call_leaves_state (emulatorOn programADD) (emulatorOn programADD) TypeError).
  left. reflexivity.
Defined.
